(** * AsyncFacilito: the session facade of src/facilito/async_api.py

    A shallow embedding of the [AsyncFacilito] class.  The class only
    orchestrates calls to a browser driver, to the collectors and
    downloaders and to a few helpers, so the embedding is a state-and-
    exception monad over the facade object and the outside world, in which
    every call that leaves the class is recorded in a trace and answered
    by an arbitrary environment. *)

From Stdlib Require Import ZArith List Bool Lia.
From stdpp Require Import gmap strings list fin_maps.

Open Scope string_scope.
Open Scope list_scope.

(** ** Python exceptions and results *)

(** The exceptions that can travel through the facade.  [External] stands
    for whatever the driver, the collaborators or the operating system
    raise (playwright's TimeoutError, a navigation error, ...): the facade
    never inspects them. *)
Inductive exn : Type :=
| LoginError
| AuthenticationRequired
| RequestFailed (cause : exn)
| UnboundLocalError (name : string)
| AttributeError (name : string)
| PyException (msg : string)
| FileNotFoundError (path : string)
| JSONDecodeError
| External (code : nat).

Inductive Result (A : Type) : Type :=
| Ok (a : A)
| Raise (e : exn).
Arguments Ok {A} a.
Arguments Raise {A} e.

(** The exception at the bottom of a chain of [RequestFailed] wrappers. *)
Fixpoint original_cause (e : exn) : exn :=
  match e with
  | RequestFailed c => original_cause c
  | _ => e
  end.

(** [fails_with r k]: the call ended in an error whose original cause is
    [k]. *)
Definition fails_with {A} (r : Result A) (k : exn) : Prop :=
  exists e, r = Raise e /\ original_cause e = k.

Definition is_ok {A} (r : Result A) : bool :=
  match r with Ok _ => true | Raise _ => false end.

(** ** The state-and-exception monad *)

Definition Mon (S A : Type) : Type := S -> Result A * S.

Definition ret {S A} (a : A) : Mon S A := fun s => (Ok a, s).

Definition raise {S A} (e : exn) : Mon S A := fun s => (Raise e, s).

Definition bind {S A B} (m : Mon S A) (k : A -> Mon S B) : Mon S B :=
  fun s =>
    match m s with
    | (Ok a, s') => k a s'
    | (Raise e, s') => (Raise e, s')
    end.

Declare Scope mon_scope.
Delimit Scope mon_scope with mon.
Notation "x <- m ;; k" := (bind m (fun x => k))
  (at level 100, m at next level, right associativity) : mon_scope.
Notation "m ;; k" := (bind m (fun _ => k))
  (at level 100, right associativity) : mon_scope.
Open Scope mon_scope.

(** [try: body / except Exception: handler]. *)
Definition try_except {S A} (body : Mon S A) (handler : exn -> Mon S A)
  : Mon S A :=
  fun s =>
    match body s with
    | (Ok a, s') => (Ok a, s')
    | (Raise e, s') => handler e s'
    end.

(** [try: body / finally: fin].  The [finally] block runs on every exit of
    the body; an exception raised by it replaces the body's outcome. *)
Definition try_finally {S A} (body : Mon S A) (fin : Mon S unit) : Mon S A :=
  fun s =>
    match body s with
    | (r, s') =>
        match fin s' with
        | (Ok _, s'') => (r, s'')
        | (Raise e, s'') => (Raise e, s'')
        end
    end.

(** A method frame with local variables of type [L]: the locals start as
    [l0] and are dropped when the method returns or raises. *)
Definition frame {L S A} (l0 : L) (m : Mon (L * S) A) : Mon S A :=
  fun s => match m (l0, s) with (r, (_, s')) => (r, s') end.

Definition lift {L S A} (m : Mon S A) : Mon (L * S) A :=
  fun ls => match m (snd ls) with (r, s') => (r, (fst ls, s')) end.

(** ** Data *)

Definition Handle := nat.
Definition Page := nat.
Definition Path := string.
Definition Options := list (string * string).

(** Modelled from the spec: models.TypeUnit and the unit and course records
    are not among the sources; a Unit has a type tag (video, lecture, quiz)
    and a slug, a Course aggregates Units. *)
Inductive TypeUnit : Type := VIDEO | LECTURE | QUIZ.

Definition TypeUnit_eqb (a b : TypeUnit) : bool :=
  match a, b with
  | VIDEO, VIDEO | LECTURE, LECTURE | QUIZ, QUIZ => true
  | _, _ => false
  end.

Record Unit : Type := mkUnit { type : TypeUnit; slug : string }.

Record Course : Type := mkCourse { course_slug : string; units : list Unit }.

(** A cookie in the browser context's schema and a parsed JSON document. *)
Record Cookie : Type := mkCookie {
  cookie_name : string; cookie_value : string; cookie_domain : string;
  cookie_path : string; cookie_expires : Z;
  cookie_httpOnly : bool; cookie_secure : bool }.

#[local] Unset Elimination Schemes.
Inductive Json : Type :=
| JNull
| JBool (b : bool)
| JNum (z : Z)
| JStr (s : string)
| JArr (items : list Json)
| JObj (fields : list (string * Json)).
#[local] Set Elimination Schemes.

(** ** The trace of calls that leave the class *)

Inductive Event : Type :=
| PlaywrightStart
| FirefoxLaunch (pw : Handle) (headless : bool)
| NewContext (browser : Handle) (is_mobile java_script_enabled : bool)
| ApplyStealth (ctx : Handle)
| RestoreState (ctx : Handle) (blob : string)
| StorageState (ctx : Handle) (path : Path)
| NewPage (ctx : Handle)
| Goto (page : Page) (url : string)
| WaitForSelector (page : Page) (selector : string) (timeout : Z)
| TextContent (page : Page) (selector : string) (timeout : Z)
| PageClose (page : Page)
| AddCookies (ctx : Handle) (cookies : list Cookie)
| ContextClose (ctx : Handle)
| BrowserClose (browser : Handle)
| PlaywrightStop (pw : Handle)
| ReadFile (path : Path)
| Unlink (path : Path)
| CollectUnit (ctx : Handle) (url : string)
| CollectCourse (ctx : Handle) (url : string)
| DownloadUnit (ctx : Handle) (u : Unit) (dest : Path) (kwargs : Options)
| DownloadCourse (ctx : Handle) (c : Course) (kwargs : Options).

(** ** The facade object and the world around it *)

Record Facade : Type := mkFacade {
  headless : bool;
  authenticated : bool;
  _playwright : option Handle;
  _browser : option Handle;
  _context : option Handle }.

Record State : Type := mkState {
  self : Facade;
  fs : gmap string string;       (* files on disk: path to content *)
  trace : list Event;            (* calls made so far, oldest first *)
  logs : list string }.          (* logger.info lines, oldest first *)

Definition M (A : Type) : Type := Mon State A.
Definition FM (A : Type) : Type := Mon (option Page * State) A.

(** What a call that leaves the class answers. *)
Inductive Outcome (A : Type) : Type :=
| Done (a : A)
| Fails (code : nat).
Arguments Done {A} a.
Arguments Fails {A} code.

Definition result_of {A} (o : Outcome A) : Result A :=
  match o with Done a => Ok a | Fails c => Raise (External c) end.

(** ** The environment

    Everything the class calls but does not define: the playwright driver,
    the stealth layer, the collectors and downloaders, and the constants
    and pure helpers of the package that are not among the sources.  Every
    answer may depend on the moment of the call (the number of calls made
    before it), so two calls of one operation need not agree. *)
Class Env : Type := {
  (* constants.py *)
  BASE_URL : string;
  LOGIN_URL : string;
  SESSION_FILE : Path;
  (* utils.py: the URL classifier *)
  is_video : string -> bool;
  is_lecture : string -> bool;
  is_quiz : string -> bool;
  is_course : string -> bool;
  (* json.loads and utils.normalize_cookies *)
  parse_json : string -> option Json;
  cookies_of_json : Json -> Outcome (list Cookie);
  (* playwright and playwright_stealth *)
  playwright_start : nat -> Outcome Handle;
  firefox_launch : nat -> Handle -> bool -> Outcome Handle;
  browser_new_context : nat -> Handle -> Outcome Handle;
  stealth_apply : nat -> Handle -> Outcome unit;
  context_restore : nat -> Handle -> string -> Outcome unit;
  context_storage_state : nat -> Handle -> Outcome string;
  context_new_page : nat -> Handle -> Outcome Page;
  context_add_cookies : nat -> Handle -> list Cookie -> Outcome unit;
  context_close : nat -> Handle -> Outcome unit;
  browser_close : nat -> Handle -> Outcome unit;
  playwright_stop : nat -> Handle -> Outcome unit;
  page_goto : nat -> Page -> string -> Outcome unit;
  page_wait_for_selector : nat -> Page -> string -> Z -> Outcome (option Handle);
  page_text_content : nat -> Page -> string -> Z -> Outcome (option string);
  page_close : nat -> Page -> Outcome unit;
  (* collectors.py and downloaders.py *)
  collectors_fetch_unit : nat -> Handle -> string -> Outcome Unit;
  collectors_fetch_course : nat -> Handle -> string -> Outcome Course;
  download_unit : nat -> Handle -> Unit -> Path -> Options -> Outcome unit;
  download_course : nat -> Handle -> Course -> Options -> Outcome unit }.

(** ** Primitive actions *)

Definition emit (ev : Event) (s : State) : State :=
  {| self := self s; fs := fs s; trace := trace s ++ [ev]; logs := logs s |}.

Definition now (s : State) : nat := length (trace s).

(** A call that leaves the class: it is recorded, then answered. *)
Definition call {A} (ev : Event) (answer : nat -> Outcome A) : M A :=
  fun s => (result_of (answer (now s)), emit ev s).

Definition logger_info (msg : string) : M unit :=
  fun s => (Ok tt, {| self := self s; fs := fs s; trace := trace s;
                      logs := logs s ++ [msg] |}).

Definition update_self (f : Facade -> Facade) : M unit :=
  fun s => (Ok tt, {| self := f (self s); fs := fs s; trace := trace s;
                      logs := logs s |}).

Definition update_fs (f : gmap string string -> gmap string string) : M unit :=
  fun s => (Ok tt, {| self := self s; fs := f (fs s); trace := trace s;
                      logs := logs s |}).

Definition get_self : M Facade := fun s => (Ok (self s), s).

Definition get_fs : M (gmap string string) := fun s => (Ok (fs s), s).

(** [self.name], for an attribute that [__aenter__] creates. *)
Definition attribute (name : string) (field : Facade -> option Handle)
  : M Handle :=
  f <- get_self ;;
  match field f with
  | Some h => ret h
  | None => raise (AttributeError name)
  end.

Definition set_authenticated (b : bool) : M unit :=
  update_self (fun f =>
    {| headless := headless f; authenticated := b;
       _playwright := _playwright f; _browser := _browser f;
       _context := _context f |}).

Definition set__playwright (h : Handle) : M unit :=
  update_self (fun f =>
    {| headless := headless f; authenticated := authenticated f;
       _playwright := Some h; _browser := _browser f;
       _context := _context f |}).

Definition set__browser (h : Handle) : M unit :=
  update_self (fun f =>
    {| headless := headless f; authenticated := authenticated f;
       _playwright := _playwright f; _browser := Some h;
       _context := _context f |}).

Definition set__context (h : Handle) : M unit :=
  update_self (fun f =>
    {| headless := headless f; authenticated := authenticated f;
       _playwright := _playwright f; _browser := _browser f;
       _context := Some h |}).

(** The local variable [page] of [login] and [_set_profile]. *)
Definition store_page (p : Page) : FM unit :=
  fun ls => (Ok tt, (Some p, snd ls)).

Definition load_page : FM Page :=
  fun ls =>
    match fst ls with
    | Some p => (Ok p, ls)
    | None => (Raise (UnboundLocalError "page"), ls)
    end.

(** Python truth values of the two things the class tests. *)
Definition truthy_handle (o : option Handle) : bool :=
  match o with Some _ => true | None => false end.

Definition truthy_str (o : option string) : bool :=
  match o with
  | Some s => negb (String.eqb s "")
  | None => false
  end.

Section AsyncFacilito.

Context {E : Env}.

(** ** Helpers of the package that are not among the sources *)

(** Modelled from the spec: utils.try_except_request is not among the
    sources.  Any exception raised inside the wrapped operation is caught
    and raised again as the single request-failed error, which keeps the
    original exception as its cause. *)
Definition try_except_request {A} (func : M A) : M A :=
  try_except func (fun e => raise (RequestFailed e)).

(** Modelled from the spec: utils.login_required is not among the sources.
    If Authenticated is false at call time the operation fails at once
    with the authentication-required error and the wrapped operation is
    not started. *)
Definition login_required {A} (func : M A) : M A :=
  f <- get_self ;;
  if authenticated f then func else raise AuthenticationRequired.

(** Modelled from the spec: utils.load_state is not among the sources.
    The Session State is restored into the context when the file is
    present; its absence is not an error. *)
Definition load_state (ctx : Handle) (path : Path) : M unit :=
  files <- get_fs ;;
  match files !! path with
  | Some blob => call (RestoreState ctx blob) (fun t => context_restore t ctx blob)
  | None => ret tt
  end.

(** Modelled from the spec: utils.save_state is not among the sources.
    The context's cookies and storage are serialised and written to the
    file. *)
Definition save_state (ctx : Handle) (path : Path) : M unit :=
  blob <- call (StorageState ctx path) (fun t => context_storage_state t ctx) ;;
  update_fs (fun files => <[path := blob]> files).

(** Modelled from the spec: helpers.read_json is not among the sources.
    It fails when the file is missing or is not valid JSON. *)
Definition read_json (path : Path) : M Json :=
  files <- get_fs ;;
  text <- (fun s => (match files !! path with
                     | Some text => Ok text
                     | None => Raise (FileNotFoundError path)
                     end, emit (ReadFile path) s)) ;;
  match parse_json text with
  | Some j => ret j
  | None => raise JSONDecodeError
  end.

(** Modelled from the spec: utils.normalize_cookies is not among the
    sources.  A pure conversion to the context's cookie schema, which may
    reject its input. *)
Definition normalize_cookies (j : Json) : M (list Cookie) :=
  fun s => (result_of (cookies_of_json j), s).

(** ** The class *)

(** [AsyncFacilito(headless)]. *)
Definition __init__ (headless : bool) : Facade :=
  {| headless := headless; authenticated := false;
     _playwright := None; _browser := None; _context := None |}.

(** The property [context]. *)
Definition context : M Handle := attribute "_context" _context.

(** The property [page]. *)
Definition page : M Page :=
  ctx <- attribute "_context" _context ;;
  call (NewPage ctx) (fun t => context_new_page t ctx).

Definition _set_profile_body : M unit :=
  let SELECTOR := "h1.h1.f-text-34" in
  let TIMEOUT := (5 * 1000)%Z in
  frame None
    (try_finally
       (try_except
          (page <- lift page ;;
           store_page page ;;
           lift (call (Goto page BASE_URL) (fun t => page_goto t page BASE_URL)) ;;
           welcome_message <-
             lift (call (TextContent page SELECTOR TIMEOUT)
                        (fun t => page_text_content t page SELECTOR TIMEOUT)) ;;
           if truthy_str welcome_message then
             lift (set_authenticated true) ;;
             lift (logger_info (default "" welcome_message))
           else ret tt)
          (fun _ => ret tt))
       (page <- load_page ;;
        lift (call (PageClose page) (fun t => page_close t page)))).

Definition _set_profile : M unit := try_except_request _set_profile_body.

Definition __aenter__ : M unit :=
  pw <- call PlaywrightStart playwright_start ;;
  set__playwright pw ;;
  pw <- attribute "_playwright" _playwright ;;
  f <- get_self ;;
  browser <- call (FirefoxLaunch pw (headless f))
                  (fun t => firefox_launch t pw (headless f)) ;;
  set__browser browser ;;
  browser <- attribute "_browser" _browser ;;
  ctx <- call (NewContext browser true true)
              (fun t => browser_new_context t browser) ;;
  set__context ctx ;;
  ctx <- attribute "_context" _context ;;
  call (ApplyStealth ctx) (fun t => stealth_apply t ctx) ;;
  ctx <- attribute "_context" _context ;;
  load_state ctx SESSION_FILE ;;
  _set_profile ;;
  ret tt.

Definition __aexit__ : M unit :=
  ctx <- attribute "_context" _context ;;
  call (ContextClose ctx) (fun t => context_close t ctx) ;;
  browser <- attribute "_browser" _browser ;;
  call (BrowserClose browser) (fun t => browser_close t browser) ;;
  pw <- attribute "_playwright" _playwright ;;
  call (PlaywrightStop pw) (fun t => playwright_stop t pw).

(** [async with AsyncFacilito(...) as client: body].  Python runs
    [__aexit__] on every exit of the body, but not when [__aenter__]
    itself raises; [__aexit__] returns None, so an exception of the body
    is raised again after it. *)
Definition async_with {A} (body : M A) : M A :=
  __aenter__ ;;
  try_finally body __aexit__.

Definition login_body : M unit :=
  logger_info "Please login, in the opened browser" ;;
  logger_info "You have to login manually, you have 2 minutes to do it" ;;
  let SELECTOR := "h1.h1.f-text-34" in
  frame None
    (try_finally
       (try_except
          (page <- lift page ;;
           store_page page ;;
           lift (call (Goto page LOGIN_URL) (fun t => page_goto t page LOGIN_URL)) ;;
           welcome_message <-
             lift (call (WaitForSelector page SELECTOR (2 * 60 * 1000))
                        (fun t => page_wait_for_selector t page SELECTOR
                                    (2 * 60 * 1000))) ;;
           (if negb (truthy_handle welcome_message)
            then raise LoginError else ret tt) ;;
           lift (set_authenticated true) ;;
           ctx <- lift context ;;
           lift (save_state ctx SESSION_FILE) ;;
           lift (logger_info "Logged in successfully"))
          (fun _ => raise LoginError))
       (page <- load_page ;;
        lift (call (PageClose page) (fun t => page_close t page)))).

Definition login : M unit := try_except_request login_body.

(** [unlink(missing_ok=True)] on the file store: the file is removed when
    it is there and nothing happens when it is not. *)
Definition logout_body : M unit :=
  call (Unlink SESSION_FILE) (fun _ => Done tt) ;;
  update_fs (fun files => delete SESSION_FILE files) ;;
  logger_info "Logged out successfully".

Definition logout : M unit := try_except_request logout_body.

Definition fetch_unit_body (url : string) : M Unit :=
  ctx <- context ;;
  call (CollectUnit ctx url) (fun t => collectors_fetch_unit t ctx url).

Definition fetch_unit (url : string) : M Unit :=
  try_except_request (login_required (fetch_unit_body url)).

Definition fetch_course_body (url : string) : M Course :=
  ctx <- context ;;
  call (CollectCourse ctx url) (fun t => collectors_fetch_course t ctx url).

Definition fetch_course (url : string) : M Course :=
  try_except_request (login_required (fetch_course_body url)).

Definition download_body (url : string) (kwargs : Options) : M unit :=
  if is_video url || is_lecture url || is_quiz url then
    u <- fetch_unit url ;;
    let extension :=
      if TypeUnit_eqb (type u) VIDEO then ".mp4" else ".mhtml" in
    ctx <- context ;;
    call (DownloadUnit ctx u (slug u +:+ extension) kwargs)
         (fun t => download_unit t ctx u (slug u +:+ extension) kwargs)
  else if is_course url then
    course <- fetch_course url ;;
    ctx <- context ;;
    call (DownloadCourse ctx course kwargs)
         (fun t => download_course t ctx course kwargs)
  else
    raise (PyException
             "Please provide a valid URL, either a video, lecture or course.").

Definition download (url : string) (kwargs : Options) : M unit :=
  try_except_request (login_required (download_body url kwargs)).

Definition set_cookies_body (path : Path) : M unit :=
  raw <- read_json path ;;
  cookies <- normalize_cookies raw ;;
  ctx <- context ;;
  call (AddCookies ctx cookies) (fun t => context_add_cookies t ctx cookies) ;;
  _set_profile ;;
  ctx <- context ;;
  save_state ctx SESSION_FILE.

Definition set_cookies (path : Path) : M unit :=
  try_except_request (set_cookies_body path).

End AsyncFacilito.

(** ** Concrete environments

    [scripted bad greeting element]: every call made at a moment listed in
    [bad] fails, every other call succeeds; the home page shows [greeting]
    and the login page yields [element]. *)

Definition sample_cookie : Cookie :=
  {| cookie_name := "sid"; cookie_value := "abc"; cookie_domain := "platform";
     cookie_path := "/"; cookie_expires := (-1)%Z;
     cookie_httpOnly := true; cookie_secure := true |}.

Definition sample_export : string := "[{'name': 'sid', 'value': 'abc'}]".

Definition sample_json : Json :=
  JArr [JObj [("name", JStr "sid"); ("value", JStr "abc")]].

Definition answer {A} (bad : list nat) (t : nat) (a : A) : Outcome A :=
  if existsb (Nat.eqb t) bad then Fails t else Done a.

Definition has_prefix (p s : string) : bool :=
  String.prefix p s.

Definition scripted (bad : list nat) (greeting : option string)
    (element : option Handle) : Env :=
  {| BASE_URL := "https://platform";
     LOGIN_URL := "https://platform/users/sign_in";
     SESSION_FILE := "state.json";
     is_video := has_prefix "https://platform/videos/";
     is_lecture := has_prefix "https://platform/articulos/";
     is_quiz := has_prefix "https://platform/quizzes/";
     is_course := has_prefix "https://platform/courses/";
     parse_json := fun text =>
       if String.eqb text sample_export then Some sample_json else None;
     cookies_of_json := fun j =>
       match j with
       | JArr [JObj _] => Done [sample_cookie]
       | _ => Fails 400
       end;
     playwright_start := fun t => answer bad t 1;
     firefox_launch := fun t _ _ => answer bad t 2;
     browser_new_context := fun t _ => answer bad t 3;
     stealth_apply := fun t _ => answer bad t tt;
     context_restore := fun t _ _ => answer bad t tt;
     context_storage_state := fun t _ => answer bad t "cookies-and-storage";
     context_new_page := fun t _ => answer bad t (100 + t);
     context_add_cookies := fun t _ _ => answer bad t tt;
     context_close := fun t _ => answer bad t tt;
     browser_close := fun t _ => answer bad t tt;
     playwright_stop := fun t _ => answer bad t tt;
     page_goto := fun t _ _ => answer bad t tt;
     page_wait_for_selector := fun t _ _ _ => answer bad t element;
     page_text_content := fun t _ _ _ => answer bad t greeting;
     page_close := fun t _ => answer bad t tt;
     collectors_fetch_unit := fun t _ url =>
       answer bad t
         {| type := if has_prefix "https://platform/videos/" url
                    then VIDEO else LECTURE;
            slug := "some-slug" |};
     collectors_fetch_course := fun t _ _ =>
       answer bad t {| course_slug := "abc"; units := [] |};
     download_unit := fun t _ _ _ _ => answer bad t tt;
     download_course := fun t _ _ _ => answer bad t tt |}.

(** A facade that was started, and the state of a fresh process. *)
Definition started (auth : bool) : Facade :=
  {| headless := true; authenticated := auth;
     _playwright := Some 1; _browser := Some 2; _context := Some 3 |}.

Definition state_of (f : Facade) (files : gmap string string) : State :=
  {| self := f; fs := files; trace := []; logs := [] |}.


(** ** Vocabulary of the properties *)

(** What the caller of a wrapped operation gets. *)
Definition wrapped {A} (r : Result A) : Result A :=
  match r with Ok a => Ok a | Raise e => Raise (RequestFailed e) end.

(** The calls made between two states of one run. *)
Definition calls_since (s s' : State) : list Event :=
  drop (length (trace s)) (trace s').

(** The same state with another value of the Authenticated flag. *)
Definition with_flag (b : bool) (s : State) : State :=
  {| self := {| headless := headless (self s); authenticated := b;
                _playwright := _playwright (self s);
                _browser := _browser (self s);
                _context := _context (self s) |};
     fs := fs s; trace := trace s; logs := logs s |}.

(** The calls that release a resource of [__aenter__]. *)
Definition is_release (ev : Event) : bool :=
  match ev with
  | ContextClose _ | BrowserClose _ | PlaywrightStop _ => true
  | _ => false
  end.

(** Every resource the facade holds has been released in the trace. *)
Definition all_released (s : State) : bool :=
  match _context (self s) with
  | Some c => existsb (fun ev => match ev with
                                 | ContextClose c' => Nat.eqb c c'
                                 | _ => false end) (trace s)
  | None => true
  end &&
  match _browser (self s) with
  | Some b => existsb (fun ev => match ev with
                                 | BrowserClose b' => Nat.eqb b b'
                                 | _ => false end) (trace s)
  | None => true
  end &&
  match _playwright (self s) with
  | Some p => existsb (fun ev => match ev with
                                 | PlaywrightStop p' => Nat.eqb p p'
                                 | _ => false end) (trace s)
  | None => true
  end.

(** The operations of the class, and a client that calls them one after
    another, going on after a failure as a caller that catches it would. *)
Inductive Op : Type :=
| Enter
| Exit
| Login
| Logout
| FetchUnit (url : string)
| FetchCourse (url : string)
| Download (url : string) (kwargs : Options)
| SetCookies (path : Path)
| SetProfile.

Definition run_op {E : Env} (op : Op) (s : State) : State :=
  match op with
  | Enter => snd (__aenter__ s)
  | Exit => snd (__aexit__ s)
  | Login => snd (login s)
  | Logout => snd (logout s)
  | FetchUnit url => snd (fetch_unit url s)
  | FetchCourse url => snd (fetch_course url s)
  | Download url kwargs => snd (download url kwargs s)
  | SetCookies path => snd (set_cookies path s)
  | SetProfile => snd (_set_profile s)
  end.

Definition exec {E : Env} (ops : list Op) (s : State) : State :=
  fold_left (fun s op => run_op op s) ops s.

(** A relation between the state before and the state after that holds
    along every run of a computation. *)
Definition respects {S A} (R : S -> S -> Prop) (m : Mon S A) : Prop :=
  forall s, R s (snd (m s)).

(** A relation on states, read on a method frame. *)
Definition on_state {L} (R : State -> State -> Prop)
  : L * State -> L * State -> Prop :=
  fun a b => R (snd a) (snd b).

(** The flag does not fall. *)
Definition flag_kept (s s' : State) : Prop :=
  authenticated (self s) = true -> authenticated (self s') = true.

(** The trace grows by calls that release nothing. *)
Definition nothing_released (s s' : State) : Prop :=
  exists evs, trace s' = trace s ++ evs /\ existsb is_release evs = false.

(** The call failed with the authentication-required error, wrapped or
    not. *)
Definition authentication_required {A} (r : Result A) : bool :=
  match r with
  | Ok _ => false
  | Raise e =>
      match original_cause e with
      | AuthenticationRequired => true
      | _ => false
      end
  end.

(** The destination the spec gives to a downloaded Unit: the slug plus
    [.mp4] for a video, plus the page-archive extension otherwise. *)
Definition expected_destination (u : Unit) : Path :=
  match type u with
  | VIDEO => slug u +:+ ".mp4"
  | LECTURE | QUIZ => slug u +:+ ".mhtml"
  end.

(** The error [download] raises for a URL of no known shape. *)
Definition invalid_url_error : exn :=
  PyException "Please provide a valid URL, either a video, lecture or course.".

(** The files and the attributes of the facade stay, the trace grows. *)
Definition only_calls (s s' : State) : Prop :=
  fs s' = fs s
  /\ _context (self s') = _context (self s)
  /\ exists evs, trace s' = trace s ++ evs.

(** The flag is true only on a facade that holds a context. *)
Definition started_if_authenticated (s : State) : Prop :=
  authenticated (self s) = true -> is_Some (_context (self s)).

(** What [download] does for [url] on a facade that holds the context
    [ctx]: the calls it makes, by the shape of the URL. *)
Definition dispatched {E : Env} (url : string) (kwargs : Options)
    (s : State) (ctx : Handle) : Prop :=
  let r := download url kwargs s in
  if is_video url || is_lecture url || is_quiz url then
    match collectors_fetch_unit (now s) ctx url with
    | Done u =>
        calls_since s (snd r)
        = [CollectUnit ctx url;
           DownloadUnit ctx u (expected_destination u) kwargs]
    | Fails c =>
        calls_since s (snd r) = [CollectUnit ctx url]
        /\ fails_with (fst r) (External c)
    end
  else if is_course url then
    match collectors_fetch_course (now s) ctx url with
    | Done c =>
        calls_since s (snd r)
        = [CollectCourse ctx url; DownloadCourse ctx c kwargs]
    | Fails c =>
        calls_since s (snd r) = [CollectCourse ctx url]
        /\ fails_with (fst r) (External c)
    end
  else
    fails_with (fst r) invalid_url_error /\ snd r = s.

(** Start cleans up after a failure: when [__aenter__] raises on a new
    facade, everything it created has been released. *)
Definition start_cleans_up {E : Env} (s : State) : Prop :=
  forall e s', __aenter__ s = (Raise e, s') -> all_released s' = true.

(** Stop is best effort: it returns normally and has made its three
    closing calls. *)
Definition stop_is_best_effort {E : Env} (s : State) : Prop :=
  forall ctx browser pw,
    _context (self s) = Some ctx -> _browser (self s) = Some browser ->
    _playwright (self s) = Some pw ->
    is_ok (fst (__aexit__ s)) = true
    /\ calls_since s (snd (__aexit__ s))
       = [ContextClose ctx; BrowserClose browser; PlaywrightStop pw].

(** ** Vocabulary of the further properties *)

(** The probe finds a greeting: the page opens, the home page loads and
    the text of the greeting element is a non-empty string. *)
Definition greeting_seen {E : Env} (s : State) : bool :=
  match _context (self s) with
  | None => false
  | Some ctx =>
      match context_new_page (now s) ctx with
      | Fails _ => false
      | Done p =>
          match page_goto (S (now s)) p BASE_URL with
          | Fails _ => false
          | Done _ =>
              match page_text_content (S (S (now s))) p "h1.h1.f-text-34" 5000
              with
              | Fails _ => false
              | Done text => truthy_str text
              end
          end
      end
  end.

(** The constructor's setting and the three handles are the same. *)
Definition handles_kept (s s' : State) : Prop :=
  headless (self s') = headless (self s)
  /\ _playwright (self s') = _playwright (self s)
  /\ _browser (self s') = _browser (self s)
  /\ _context (self s') = _context (self s).

(** Every operation but Start. *)
Definition no_start (op : Op) : bool :=
  match op with Enter => false | _ => true end.

(** The operations that have no assignment to an attribute of [self]. *)
Definition reads_only (op : Op) : bool :=
  match op with
  | Exit | Logout | FetchUnit _ | FetchCourse _ | Download _ _ => true
  | Enter | Login | SetCookies _ | SetProfile => false
  end.

(** The attributes are created in the order of [__aenter__], and the flag
    is raised only on a facade that holds a context. *)
Definition wired (s : State) : Prop :=
  (authenticated (self s) = true -> is_Some (_context (self s)))
  /\ (is_Some (_context (self s)) -> is_Some (_browser (self s)))
  /\ (is_Some (_browser (self s)) -> is_Some (_playwright (self s))).

(** * Properties *)

(** ** The scenarios of the spec, run on a scripted environment *)

(** A new headless facade with no Session State: [fetch_unit] is refused;
    after Start and a login that finds the greeting, [download] of a video
    URL makes one Unit download to [some-slug.mp4]. *)
Example scenario_video :
  let E := scripted [] None (Some 7) in
  let s0 := state_of (__init__ true) ∅ in
  let url := "https://platform/videos/123-some-slug" in
  fst (fetch_unit url s0) = Raise (RequestFailed AuthenticationRequired)
  /\ authenticated (self (exec [Enter] s0)) = false
  /\ authenticated (self (exec [Enter; Login] s0)) = true
  /\ fst (download url [] (exec [Enter; Login] s0)) = Ok tt
  /\ calls_since (exec [Enter; Login] s0)
       (exec [Enter; Login; Download url []] s0)
     = [CollectUnit 3 url;
        DownloadUnit 3 {| type := VIDEO; slug := "some-slug" |}
          "some-slug.mp4" []].
Proof. repeat split. Qed.

(** A course URL: one Course fetch, then one Course download. *)
Example scenario_course :
  let E := scripted [] (Some "Hola") None in
  let s := state_of (started true) ∅ in
  calls_since s (snd (download "https://platform/courses/abc" [] s))
  = [CollectCourse 3 "https://platform/courses/abc";
     DownloadCourse 3 {| course_slug := "abc"; units := [] |} []].
Proof. reflexivity. Qed.

(** A login whose wait for the greeting times out: LoginError, and the
    page is closed. *)
Example scenario_login_timeout :
  let E := scripted [2] None None in
  let s := state_of (started false) ∅ in
  fst (login s) = Raise (RequestFailed LoginError)
  /\ last (trace (snd (login s))) = Some (PageClose 100)
  /\ authenticated (self (snd (login s))) = false.
Proof. repeat split. Qed.

(** A one-cookie export: one cookie installed, the Session State written. *)
Example scenario_cookies :
  let E := scripted [] None None in
  let s := state_of (started false) {[ "cookies.json" := sample_export ]} in
  fst (set_cookies "cookies.json" s) = Ok tt
  /\ trace (snd (set_cookies "cookies.json" s))
     = [ReadFile "cookies.json"; AddCookies 3 [sample_cookie]; NewPage 3;
        Goto 102 "https://platform"; TextContent 102 "h1.h1.f-text-34" 5000;
        PageClose 102; StorageState 3 "state.json"]
  /\ fs (snd (set_cookies "cookies.json" s)) !! "state.json"
     = Some "cookies-and-storage".
Proof. repeat split. Qed.

(** ** Relations kept along a run *)

Section Respects.

Context {S : Type} (R : S -> S -> Prop) `{!PreOrder R}.

Lemma respects_ret {A} (a : A) : respects R (ret a).
Proof. intros s. reflexivity. Qed.

Lemma respects_raise {A} (e : exn) : respects R (raise (A := A) e).
Proof. intros s. reflexivity. Qed.

Lemma respects_bind {A B} (m : Mon S A) (k : A -> Mon S B) :
  respects R m -> (forall a, respects R (k a)) -> respects R (bind m k).
Proof.
  intros Hm Hk s. unfold bind. specialize (Hm s).
  destruct (m s) as [[a | e] s1]; simpl in *; [ | exact Hm ].
  etransitivity; [ exact Hm | apply Hk ].
Qed.

Lemma respects_try_except {A} (body : Mon S A) (handler : exn -> Mon S A) :
  respects R body -> (forall e, respects R (handler e)) ->
  respects R (try_except body handler).
Proof.
  intros Hb Hh s. unfold try_except. specialize (Hb s).
  destruct (body s) as [[a | e] s1]; simpl in *; [ exact Hb | ].
  etransitivity; [ exact Hb | apply Hh ].
Qed.

Lemma respects_try_finally {A} (body : Mon S A) (fin : Mon S unit) :
  respects R body -> respects R fin -> respects R (try_finally body fin).
Proof.
  intros Hb Hf s. unfold try_finally. specialize (Hb s).
  destruct (body s) as [r s1]; simpl in *. specialize (Hf s1).
  destruct (fin s1) as [[[] | e] s2]; simpl in *;
    (etransitivity; [ exact Hb | exact Hf ]).
Qed.

End Respects.

#[local] Instance on_state_preorder {L} (R : State -> State -> Prop)
  `{!PreOrder R} : PreOrder (on_state (L := L) R).
Proof.
  split.
  - intros [l s]. unfold on_state. reflexivity.
  - intros [l1 s1] [l2 s2] [l3 s3]. unfold on_state. simpl.
    intros H12 H23. etransitivity; eassumption.
Qed.

Lemma respects_lift {L A} (R : State -> State -> Prop) (m : M A) :
  respects R m -> respects (on_state (L := L) R) (lift m).
Proof.
  intros Hm [l s]. unfold lift, on_state. simpl. specialize (Hm s).
  destruct (m s) as [r s1]. exact Hm.
Qed.

Lemma respects_frame {L A} (R : State -> State -> Prop) (l0 : L)
    (m : Mon (L * State) A) :
  respects (on_state R) m -> respects R (frame l0 m).
Proof.
  intros Hm s. unfold frame. specialize (Hm (l0, s)).
  destruct (m (l0, s)) as [r [l s1]]. exact Hm.
Qed.

Lemma respects_store_page (R : State -> State -> Prop) `{!PreOrder R} p :
  respects (on_state R) (store_page p).
Proof. intros [l s]. unfold on_state. simpl. reflexivity. Qed.

Lemma respects_load_page (R : State -> State -> Prop) `{!PreOrder R} :
  respects (on_state R) load_page.
Proof.
  intros [l s]. unfold on_state, load_page. simpl.
  destruct l; simpl; reflexivity.
Qed.

Lemma respects_get_self (R : State -> State -> Prop) `{!PreOrder R} :
  respects R get_self.
Proof. intros s. simpl. reflexivity. Qed.

Lemma respects_get_fs (R : State -> State -> Prop) `{!PreOrder R} :
  respects R get_fs.
Proof. intros s. simpl. reflexivity. Qed.

(** One step of a proof that a method respects a relation: peel the
    outermost construct of the program. *)
Ltac respects_step :=
  lazymatch goal with
  | |- respects _ (bind _ _) => apply respects_bind; [ try exact _ | | intros ]
  | |- respects _ (try_except _ _) =>
      apply respects_try_except; [ try exact _ | | intros ]
  | |- respects _ (try_finally _ _) =>
      apply respects_try_finally; [ try exact _ | | ]
  | |- respects _ (frame _ _) => apply respects_frame
  | |- respects _ (lift _) => apply respects_lift
  | |- respects _ (ret _) => apply respects_ret; exact _
  | |- respects _ (raise _) => apply respects_raise; exact _
  | |- respects _ (store_page _) => apply respects_store_page; exact _
  | |- respects _ load_page => apply respects_load_page; exact _
  | |- respects _ get_self => apply respects_get_self; exact _
  | |- respects _ get_fs => apply respects_get_fs; exact _
  | |- respects _ (if ?b then _ else _) => destruct b
  | |- respects _ (match ?x with _ => _ end) => destruct x
  end.

(** ** The Authenticated flag never falls *)

#[local] Instance flag_kept_preorder : PreOrder flag_kept.
Proof. split; unfold flag_kept; [ intros s; tauto | intros a b c; tauto ]. Qed.

Lemma flag_kept_call {A} ev (ans : nat -> Outcome A) :
  respects flag_kept (call ev ans).
Proof. intros s H. exact H. Qed.

Lemma flag_kept_logger_info msg : respects flag_kept (logger_info msg).
Proof. intros s H. exact H. Qed.

Lemma flag_kept_update_fs f : respects flag_kept (update_fs f).
Proof. intros s H. exact H. Qed.

Lemma flag_kept_set_authenticated : respects flag_kept (set_authenticated true).
Proof. intros s H. reflexivity. Qed.

Lemma flag_kept_set__playwright h : respects flag_kept (set__playwright h).
Proof. intros s H. exact H. Qed.

Lemma flag_kept_set__browser h : respects flag_kept (set__browser h).
Proof. intros s H. exact H. Qed.

Lemma flag_kept_set__context h : respects flag_kept (set__context h).
Proof. intros s H. exact H. Qed.

Create HintDb flag_kept.
#[local] Hint Resolve flag_kept_call flag_kept_logger_info flag_kept_update_fs
  flag_kept_set_authenticated flag_kept_set__playwright flag_kept_set__browser
  flag_kept_set__context : flag_kept.

Ltac flag_kept_tac :=
  repeat first [ respects_step | solve [ auto with flag_kept ] ].

Section FlagKept.

Context {E : Env}.

Lemma flag_kept_attribute name field : respects flag_kept (attribute name field).
Proof. unfold attribute. flag_kept_tac. Qed.

Lemma flag_kept__set_profile : respects flag_kept _set_profile.
Proof.
  unfold _set_profile, try_except_request, _set_profile_body, page, attribute.
  flag_kept_tac.
Qed.

Lemma flag_kept_login : respects flag_kept login.
Proof.
  unfold login, try_except_request, login_body, page, context, attribute,
    save_state.
  flag_kept_tac.
Qed.

Lemma flag_kept_logout : respects flag_kept logout.
Proof. unfold logout, try_except_request, logout_body. flag_kept_tac. Qed.

Lemma flag_kept_fetch_unit url : respects flag_kept (fetch_unit url).
Proof.
  unfold fetch_unit, try_except_request, login_required, fetch_unit_body,
    context, attribute.
  flag_kept_tac.
Qed.

Lemma flag_kept_fetch_course url : respects flag_kept (fetch_course url).
Proof.
  unfold fetch_course, try_except_request, login_required, fetch_course_body,
    context, attribute.
  flag_kept_tac.
Qed.

Lemma flag_kept_download url kwargs : respects flag_kept (download url kwargs).
Proof.
  pose proof (flag_kept_fetch_unit url) as Hu.
  pose proof (flag_kept_fetch_course url) as Hc.
  unfold download, try_except_request, login_required, download_body,
    context, attribute.
  repeat first [ respects_step | assumption | solve [ auto with flag_kept ] ].
Qed.

Lemma flag_kept_set_cookies path : respects flag_kept (set_cookies path).
Proof.
  pose proof flag_kept__set_profile as Hp.
  unfold set_cookies, try_except_request, set_cookies_body, read_json,
    normalize_cookies, context, attribute, save_state.
  repeat first [ respects_step | assumption | solve [ auto with flag_kept ]
               | solve [ intros s H; exact H ] ].
Qed.

Lemma flag_kept___aenter__ : respects flag_kept __aenter__.
Proof.
  pose proof flag_kept__set_profile as Hp.
  unfold __aenter__, load_state, attribute.
  repeat first [ respects_step | assumption | solve [ auto with flag_kept ] ].
Qed.

Lemma flag_kept___aexit__ : respects flag_kept __aexit__.
Proof. unfold __aexit__, attribute. flag_kept_tac. Qed.

Lemma flag_kept_run_op op s : flag_kept s (run_op op s).
Proof.
  destruct op; simpl.
  - apply flag_kept___aenter__.
  - apply flag_kept___aexit__.
  - apply flag_kept_login.
  - apply flag_kept_logout.
  - apply flag_kept_fetch_unit.
  - apply flag_kept_fetch_course.
  - apply flag_kept_download.
  - apply flag_kept_set_cookies.
  - apply flag_kept__set_profile.
Qed.

Lemma flag_kept_exec ops : forall s, flag_kept s (exec ops s).
Proof.
  induction ops as [ | op ops IH ]; intros s; simpl.
  - reflexivity.
  - etransitivity; [ apply flag_kept_run_op | apply IH ].
Qed.

End FlagKept.

(** ** Symbolic execution of a method on an arbitrary environment *)

Ltac unfold_facade :=
  unfold async_with, __aenter__, __aexit__, set_cookies, set_cookies_body,
    download, download_body, fetch_unit, fetch_unit_body, fetch_course,
    fetch_course_body, login, login_body, logout, logout_body, _set_profile,
    _set_profile_body, try_except_request, login_required, load_state,
    save_state, read_json, normalize_cookies, context, page, attribute,
    set_authenticated, set__playwright, set__browser, set__context,
    store_page, load_page, frame, lift, try_finally, try_except, bind, ret,
    raise, call, logger_info, update_self, update_fs, get_self, get_fs,
    result_of, now, emit in *.

(** Split on the innermost thing a [match] of the goal looks at. *)
Ltac split_match :=
  match goal with
  | |- context [ match ?x with _ => _ end ] =>
      lazymatch x with
      | context [ match _ with _ => _ end ] => fail
      | _ => destruct x eqn:?
      end
  end.

(** Use the equations at hand about what the goal looks at. *)
Ltac use_facts :=
  repeat match goal with
         | H : ?x = _ |- context [ match ?x with _ => _ end ] => rewrite H
         | H : ?x = _ |- context [ if ?x then _ else _ ] => rewrite H
         end.

Ltac run_facade :=
  unfold_facade; simpl in *;
  repeat (use_facts; simpl; try split_match; simplify_eq/=);
  try done.

(** ** The auth gate and the dispatch of [download] *)

Lemma calls_since_app s s' evs :
  trace s' = trace s ++ evs -> calls_since s s' = evs.
Proof. intros H. unfold calls_since. rewrite H. apply drop_app_length. Qed.

Section Gate.

Context {E : Env}.

Lemma gate_closed {A} (func : M A) s :
  authenticated (self s) = false ->
  try_except_request (login_required func) s
  = (Raise (RequestFailed AuthenticationRequired), s).
Proof.
  intros H.
  unfold try_except_request, login_required, try_except, bind, get_self, raise.
  rewrite H. reflexivity.
Qed.

Lemma gate_open {A} (func : M A) s :
  authenticated (self s) = true ->
  try_except_request (login_required func) s = try_except_request func s.
Proof.
  intros H.
  unfold try_except_request, login_required, try_except, bind, get_self.
  rewrite H. reflexivity.
Qed.

Lemma fetch_unit_open url s ctx :
  authenticated (self s) = true -> _context (self s) = Some ctx ->
  fetch_unit url s
  = (match collectors_fetch_unit (now s) ctx url with
     | Done u => Ok u
     | Fails c => Raise (RequestFailed (External c))
     end, emit (CollectUnit ctx url) s).
Proof. intros Ha Hc. run_facade. Qed.

Lemma fetch_course_open url s ctx :
  authenticated (self s) = true -> _context (self s) = Some ctx ->
  fetch_course url s
  = (match collectors_fetch_course (now s) ctx url with
     | Done c => Ok c
     | Fails c => Raise (RequestFailed (External c))
     end, emit (CollectCourse ctx url) s).
Proof. intros Ha Hc. run_facade. Qed.

Lemma extension_expected u :
  slug u +:+ (if TypeUnit_eqb (type u) VIDEO then ".mp4" else ".mhtml")
  = expected_destination u.
Proof. unfold expected_destination. destruct (type u); reflexivity. Qed.

Lemma download_unit_url url kwargs s ctx :
  authenticated (self s) = true -> _context (self s) = Some ctx ->
  is_video url || is_lecture url || is_quiz url = true ->
  download url kwargs s
  = match collectors_fetch_unit (now s) ctx url with
    | Done u =>
        (wrapped (result_of (download_unit (now (emit (CollectUnit ctx url) s))
                               ctx u (expected_destination u) kwargs)),
         emit (DownloadUnit ctx u (expected_destination u) kwargs)
              (emit (CollectUnit ctx url) s))
    | Fails c =>
        (Raise (RequestFailed (RequestFailed (External c))),
         emit (CollectUnit ctx url) s)
    end.
Proof.
  intros Ha Hc Hu. unfold download. rewrite (gate_open _ _ Ha).
  unfold try_except_request, try_except, download_body. rewrite Hu.
  unfold bind at 1. rewrite (fetch_unit_open url s ctx Ha Hc).
  destruct (collectors_fetch_unit (now s) ctx url) as [u | c]; simpl;
    [ | reflexivity ].
  rewrite extension_expected. run_facade.
Qed.

Lemma download_course_url url kwargs s ctx :
  authenticated (self s) = true -> _context (self s) = Some ctx ->
  is_video url || is_lecture url || is_quiz url = false ->
  is_course url = true ->
  download url kwargs s
  = match collectors_fetch_course (now s) ctx url with
    | Done c =>
        (wrapped (result_of (download_course (now (emit (CollectCourse ctx url) s))
                               ctx c kwargs)),
         emit (DownloadCourse ctx c kwargs) (emit (CollectCourse ctx url) s))
    | Fails c =>
        (Raise (RequestFailed (RequestFailed (External c))),
         emit (CollectCourse ctx url) s)
    end.
Proof.
  intros Ha Hc Hu Hk. unfold download. rewrite (gate_open _ _ Ha).
  unfold try_except_request, try_except, download_body. rewrite Hu, Hk.
  unfold bind at 1. rewrite (fetch_course_open url s ctx Ha Hc).
  destruct (collectors_fetch_course (now s) ctx url) as [c | c]; simpl;
    [ | reflexivity ].
  run_facade.
Qed.

Lemma download_other_url url kwargs s :
  authenticated (self s) = true ->
  is_video url || is_lecture url || is_quiz url = false ->
  is_course url = false ->
  download url kwargs s = (Raise (RequestFailed invalid_url_error), s).
Proof.
  intros Ha Hu Hk. unfold download. rewrite (gate_open _ _ Ha).
  unfold try_except_request, try_except, download_body. rewrite Hu, Hk.
  reflexivity.
Qed.

End Gate.

(** How [download] dispatches on a facade that holds a context. *)
Lemma download_on_started {E : Env} (url : string) (kwargs : Options)
    (s : State) (ctx : Handle) :
  authenticated (self s) = true ->
  _context (self s) = Some ctx ->
  dispatched url kwargs s ctx.
Proof.
  intros Ha Hc. unfold dispatched.
  destruct (is_video url || is_lecture url || is_quiz url) eqn:Hu.
  - rewrite (download_unit_url url kwargs s ctx Ha Hc Hu).
    destruct (collectors_fetch_unit (now s) ctx url) as [u | c]; simpl.
    + apply calls_since_app. simpl. rewrite <- app_assoc. reflexivity.
    + split; [ apply calls_since_app; reflexivity | ].
      eexists; split; reflexivity.
  - destruct (is_course url) eqn:Hk.
    + rewrite (download_course_url url kwargs s ctx Ha Hc Hu Hk).
      destruct (collectors_fetch_course (now s) ctx url) as [c | c]; simpl.
      * apply calls_since_app. simpl. rewrite <- app_assoc. reflexivity.
      * split; [ apply calls_since_app; reflexivity | ].
        eexists; split; reflexivity.
    + rewrite (download_other_url url kwargs s Ha Hu Hk). simpl.
      split; [ | reflexivity ]. eexists; split; reflexivity.
Qed.

(** ** Authenticated implies started

    Along every run that begins with the flag false, as a new facade
    does, the flag is true only when the facade holds a context. *)

Ltac keeps_started :=
  unfold started_if_authenticated; intros I; run_facade;
  intros; simpl in *;
  first [ congruence | solve [ eauto ]
        | rewrite ?is_Some_alt in *; naive_solver ].

Section Started.

Context {E : Env}.

Lemma started_run_op op s :
  started_if_authenticated s -> started_if_authenticated (run_op op s).
Proof. destruct op; simpl; keeps_started. Qed.

Lemma started_exec ops : forall s,
  started_if_authenticated s -> started_if_authenticated (exec ops s).
Proof.
  induction ops as [ | op ops IH ]; intros s I; simpl.
  - exact I.
  - apply IH. apply started_run_op. exact I.
Qed.

Lemma started_initially s :
  authenticated (self s) = false -> started_if_authenticated s.
Proof. intros H Ht. congruence. Qed.

End Started.

(** C1: in every state a client can reach with Authenticated true,
    [download] of a video, lecture or quiz URL calls the collector for one
    Unit and, with the Unit it returns, the Unit Downloader once, with the
    slug plus [.mp4] for a video and plus [.mhtml] otherwise as
    destination; a course URL gets one Course fetch and one Course
    Downloader call and no Unit call; any other URL fails with the
    invalid-URL error and no call at all.  When the collector fails there
    is no Unit or Course, and the failure is passed on without a
    Downloader call. *)
Theorem download_dispatch {E : Env} (s0 : State) (ops : list Op)
    (url : string) (kwargs : Options) :
  authenticated (self s0) = false ->
  authenticated (self (exec ops s0)) = true ->
  exists ctx,
    _context (self (exec ops s0)) = Some ctx
    /\ dispatched url kwargs (exec ops s0) ctx.
Proof.
  intros H0 Ha.
  destruct (started_exec ops s0 (started_initially s0 H0) Ha) as [ctx Hc].
  exists ctx. split; [ exact Hc | ].
  apply download_on_started; assumption.
Qed.

Lemma download_dispatch_witness :
  let E := scripted [] (Some "Hola") (Some 7) in
  let s0 := state_of (__init__ true) ∅ in
  let url := "https://platform/videos/123-some-slug" in
  authenticated (self s0) = false
  /\ authenticated (self (exec [Enter] s0)) = true
  /\ exists ctx,
       _context (self (exec [Enter] s0)) = Some ctx
       /\ calls_since (exec [Enter] s0)
            (snd (download url [] (exec [Enter] s0)))
          = [CollectUnit ctx url;
             DownloadUnit ctx {| type := VIDEO; slug := "some-slug" |}
               "some-slug.mp4" []].
Proof.
  intros E s0 url.
  assert (H0 : authenticated (self s0) = false) by reflexivity.
  assert (Ha : authenticated (self (exec [Enter] s0)) = true) by reflexivity.
  split; [ exact H0 | split; [ exact Ha | ] ].
  destruct (@download_dispatch E s0 [Enter] url [] H0 Ha) as [ctx [Hc Hd]].
  exists ctx. split; [ exact Hc | exact Hd ].
Defined.

(** C2: with Authenticated false, [fetch_unit], [fetch_course] and
    [download] fail at once with the authentication-required error, which
    reaches the caller through the uniform failure wrapping, and leave the
    state as it was: no call is made, nothing is written. *)
Theorem auth_gate_rejects {E : Env} (url : string) (kwargs : Options)
    (s : State) :
  authenticated (self s) = false ->
  fetch_unit url s = (Raise (RequestFailed AuthenticationRequired), s)
  /\ fetch_course url s = (Raise (RequestFailed AuthenticationRequired), s)
  /\ download url kwargs s = (Raise (RequestFailed AuthenticationRequired), s).
Proof.
  intros H. unfold fetch_unit, fetch_course, download.
  rewrite !gate_closed by exact H. auto.
Qed.

Lemma auth_gate_rejects_witness :
  let E := scripted [] (Some "Hola") (Some 7) in
  let s := state_of (started false) ∅ in
  authenticated (self s) = false /\
  (fetch_unit "https://platform/videos/123-some-slug" s
   = (Raise (RequestFailed AuthenticationRequired), s)
   /\ fetch_course "https://platform/courses/abc" s
     = (Raise (RequestFailed AuthenticationRequired), s)
   /\ download "https://platform/videos/123-some-slug" [] s
     = (Raise (RequestFailed AuthenticationRequired), s)).
Proof.
  split; [ reflexivity | ].
  pose proof (@auth_gate_rejects (scripted [] (Some "Hola") (Some 7))
                "https://platform/videos/123-some-slug" []
                (state_of (started false) ∅) eq_refl) as [Hu [_ Hd]].
  pose proof (@auth_gate_rejects (scripted [] (Some "Hola") (Some 7))
                "https://platform/courses/abc" []
                (state_of (started false) ∅) eq_refl) as [_ [Hc _]].
  split; [ exact Hu | split; [ exact Hc | exact Hd ] ].
Defined.

(** C7: [logout] returns normally whether or not the Session State file
    exists, the file is gone afterwards while every other file is as
    before, and the facade, with its Authenticated flag, is unchanged. *)
Theorem logout_removes_session_file {E : Env} (s : State) :
  fst (logout s) = Ok tt
  /\ fs (snd (logout s)) = delete SESSION_FILE (fs s)
  /\ fs (snd (logout s)) !! SESSION_FILE = None
  /\ self (snd (logout s)) = self s.
Proof.
  repeat split; simpl. apply lookup_delete_eq.
Qed.

(** C9: a new facade has Authenticated false, and whatever operations are
    called afterwards, in whatever order and whatever the environment
    answers, once the flag is true it stays true; [logout] is one of the
    operations. *)
Theorem authenticated_flag_monotone {E : Env} (h : bool) (ops : list Op)
    (s : State) :
  authenticated (__init__ h) = false
  /\ (authenticated (self s) = true ->
      authenticated (self (exec ops s)) = true).
Proof.
  split; [ reflexivity | ]. apply flag_kept_exec.
Qed.

Lemma authenticated_flag_monotone_witness :
  let E := scripted [2] (Some "Hola") None in
  let s := state_of (started true) ∅ in
  let ops := [Logout; Login; SetProfile; FetchUnit "https://platform/videos/1";
              Download "https://example.com/" []; SetCookies "cookies.json";
              Exit; Enter] in
  authenticated (self s) = true /\ authenticated (self (exec ops s)) = true.
Proof.
  split; [ reflexivity | ].
  exact (proj2 (@authenticated_flag_monotone (scripted [2] (Some "Hola") None)
                  false
                  [Logout; Login; SetProfile;
                   FetchUnit "https://platform/videos/1";
                   Download "https://example.com/" [];
                   SetCookies "cookies.json"; Exit; Enter]
                  (state_of (started true) ∅)) eq_refl).
Defined.

(** ** Start and Stop *)

#[local] Instance nothing_released_preorder : PreOrder nothing_released.
Proof.
  split.
  - intros s. exists []. split; [ symmetry; apply app_nil_r | reflexivity ].
  - intros a b c [e1 [H1 N1]] [e2 [H2 N2]]. exists (e1 ++ e2). split.
    + rewrite H2, H1. symmetry. apply app_assoc.
    + rewrite existsb_app, N1, N2. reflexivity.
Qed.

Lemma nothing_released_call {A} ev (ans : nat -> Outcome A) :
  is_release ev = false -> respects nothing_released (call ev ans).
Proof.
  intros H s. exists [ev]. split; [ reflexivity | ]. simpl. rewrite H.
  reflexivity.
Qed.

Lemma nothing_released_same_trace {A} (m : M A) :
  (forall s, trace (snd (m s)) = trace s) -> respects nothing_released m.
Proof.
  intros H s. exists []. split; [ | reflexivity ].
  rewrite H. symmetry. apply app_nil_r.
Qed.

Ltac nothing_released_tac :=
  repeat first
    [ respects_step
    | assumption
    | solve [ apply nothing_released_call; reflexivity ]
    | solve [ apply nothing_released_same_trace; intros; reflexivity ] ].

Section StartStop.

Context {E : Env}.

Lemma nothing_released__set_profile : respects nothing_released _set_profile.
Proof.
  unfold _set_profile, try_except_request, _set_profile_body, page, attribute.
  nothing_released_tac.
Qed.

Lemma nothing_released___aenter__ : respects nothing_released __aenter__.
Proof.
  pose proof nothing_released__set_profile as Hp.
  unfold __aenter__, load_state, attribute.
  nothing_released_tac.
Qed.

Lemma async_with_start_fails {A} (body : M A) s e s' :
  __aenter__ s = (Raise e, s') -> async_with body s = (Raise e, s').
Proof. intros H. unfold async_with, bind. rewrite H. reflexivity. Qed.

Lemma __aexit___started s ctx browser pw :
  _context (self s) = Some ctx -> _browser (self s) = Some browser ->
  _playwright (self s) = Some pw ->
  __aexit__ s
  = match context_close (now s) ctx with
    | Fails c => (Raise (External c), emit (ContextClose ctx) s)
    | Done _ =>
        let s1 := emit (ContextClose ctx) s in
        match browser_close (now s1) browser with
        | Fails c => (Raise (External c), emit (BrowserClose browser) s1)
        | Done _ =>
            let s2 := emit (BrowserClose browser) s1 in
            (result_of (playwright_stop (now s2) pw),
             emit (PlaywrightStop pw) s2)
        end
    end.
Proof. intros Hc Hb Hp. run_facade. Qed.

End StartStop.

Lemma now_emit ev s : now (emit ev s) = S (now s).
Proof. unfold now, emit. simpl. rewrite length_app. simpl. lia. Qed.

(** C4, as stated, fails: when the browser launch fails, the driver that
    Start had already created is never stopped. *)
Lemma start_failure_leaks_driver :
  ~ @start_cleans_up (scripted [1] None None) (state_of (__init__ false) ∅).
Proof.
  intros H.
  specialize (H (External 1)
                (snd (@__aenter__ (scripted [1] None None)
                        (state_of (__init__ false) ∅))) eq_refl).
  vm_compute in H. discriminate H.
Qed.

(** C4, amended: when a step of Start fails, the failure reaches the
    caller as it is, also through [async with], whose Stop is not run, and
    Start has made no releasing call: what it had created stays open. *)
Theorem start_failure_releases_nothing {E : Env} {A} (body : M A)
    (s : State) (e : exn) (s' : State) :
  __aenter__ s = (Raise e, s') ->
  async_with body s = (Raise e, s')
  /\ existsb is_release (calls_since s s') = false.
Proof.
  intros H. split; [ apply async_with_start_fails; exact H | ].
  destruct (nothing_released___aenter__ s) as [evs [Ht Hn]].
  rewrite H in Ht. simpl in Ht. rewrite (calls_since_app _ _ _ Ht). exact Hn.
Qed.

Lemma start_failure_releases_nothing_witness :
  let E := scripted [1] None None in
  let s := state_of (__init__ false) ∅ in
  let s' := snd (__aenter__ s) in
  __aenter__ s = (Raise (External 1), s')
  /\ (async_with (logout ;; ret tt) s = (Raise (External 1), s')
      /\ existsb is_release (calls_since s s') = false).
Proof.
  split; [ reflexivity | ].
  exact (@start_failure_releases_nothing (scripted [1] None None) unit
           (@logout (scripted [1] None None) ;; ret tt)
           (state_of (__init__ false) ∅) (External 1)
           (snd (@__aenter__ (scripted [1] None None)
                   (state_of (__init__ false) ∅))) eq_refl).
Defined.

(** C5, as stated, fails: when closing the context fails, Stop raises and
    neither the browser nor the driver is closed. *)
Lemma stop_failure_skips_the_rest :
  ~ @stop_is_best_effort (scripted [0] None None) (state_of (started true) ∅).
Proof.
  intros H. destruct (H 3 2 1 eq_refl eq_refl eq_refl) as [Hok _].
  vm_compute in Hok. discriminate Hok.
Qed.

(** C5, amended: Stop closes the context, then the browser, then the
    driver, in that order; the first closing call that fails ends Stop with
    that failure, and the resources after it are not closed. *)
Theorem stop_closes_in_order {E : Env} (s : State) (ctx browser pw : Handle) :
  _context (self s) = Some ctx -> _browser (self s) = Some browser ->
  _playwright (self s) = Some pw ->
  let r := __aexit__ s in
  (forall c, context_close (now s) ctx = Fails c ->
     fst r = Raise (External c)
     /\ calls_since s (snd r) = [ContextClose ctx])
  /\ (forall c, context_close (now s) ctx = Done tt ->
       browser_close (S (now s)) browser = Fails c ->
       fst r = Raise (External c)
       /\ calls_since s (snd r) = [ContextClose ctx; BrowserClose browser])
  /\ (context_close (now s) ctx = Done tt ->
      browser_close (S (now s)) browser = Done tt ->
      fst r = result_of (playwright_stop (S (S (now s))) pw)
      /\ calls_since s (snd r)
         = [ContextClose ctx; BrowserClose browser; PlaywrightStop pw]).
Proof.
  intros Hc Hb Hp r. subst r.
  rewrite (__aexit___started s ctx browser pw Hc Hb Hp).
  split; [ | split ].
  - intros c H1. rewrite H1. split; [ reflexivity | ].
    apply calls_since_app. reflexivity.
  - intros c H1 H2. rewrite H1. simpl. rewrite now_emit, H2.
    split; [ reflexivity | ].
    apply calls_since_app. simpl. rewrite <- app_assoc. reflexivity.
  - intros H1 H2. rewrite H1. simpl. rewrite now_emit, H2. simpl.
    rewrite !now_emit. split; [ reflexivity | ].
    apply calls_since_app. simpl. rewrite <- !app_assoc. reflexivity.
Qed.

Lemma stop_closes_in_order_witness :
  let E := scripted [1] None None in
  let s := state_of (started true) ∅ in
  (_context (self s) = Some 3 /\ _browser (self s) = Some 2
   /\ _playwright (self s) = Some 1)
  /\ context_close (now s) 3 = Done tt
  /\ browser_close (S (now s)) 2 = Fails 1
  /\ fst (__aexit__ s) = Raise (External 1)
  /\ calls_since s (snd (__aexit__ s)) = [ContextClose 3; BrowserClose 2].
Proof.
  split; [ repeat split | ].
  split; [ reflexivity | ]. split; [ reflexivity | ].
  exact (proj1 (proj2 (@stop_closes_in_order (scripted [1] None None)
                         (state_of (started true) ∅) 3 2 1
                         eq_refl eq_refl eq_refl))
           1 eq_refl eq_refl).
Defined.

(** ** Login and the authentication probe *)

Lemma closing_moment (tr : list Event) ev : Nat.pred (length (tr ++ [ev])) = length tr.
Proof. rewrite length_app. simpl. lia. Qed.

Section LoginProbe.

Context {E : Env}.

Lemma login_page_creation_fails s ctx c :
  _context (self s) = Some ctx -> context_new_page (now s) ctx = Fails c ->
  fst (login s) = Raise (RequestFailed (UnboundLocalError "page"))
  /\ calls_since s (snd (login s)) = [NewPage ctx]
  /\ self (snd (login s)) = self s.
Proof.
  intros Hc Hp. unfold calls_since. run_facade.
  repeat split. apply drop_app_length.
Qed.

Lemma login_success s :
  fst (login s) = Ok tt ->
  exists ctx p blob,
    authenticated (self (snd (login s))) = true
    /\ fs (snd (login s)) = <[SESSION_FILE := blob]> (fs s)
    /\ calls_since s (snd (login s))
       = [NewPage ctx; Goto p LOGIN_URL;
          WaitForSelector p "h1.h1.f-text-34" 120000;
          StorageState ctx SESSION_FILE; PageClose p].
Proof.
  unfold calls_since. run_facade. intros _.
  eexists _, _, _. repeat split.
  rewrite <- !app_assoc. apply drop_app_length.
Qed.

Lemma login_closes_page s ctx p :
  _context (self s) = Some ctx -> context_new_page (now s) ctx = Done p ->
  last (trace (snd (login s))) = Some (PageClose p).
Proof. intros Hc Hp. run_facade; apply last_snoc. Qed.

Lemma login_error_when_page_closes s ctx p :
  _context (self s) = Some ctx -> context_new_page (now s) ctx = Done p ->
  page_close (Nat.pred (now (snd (login s)))) p = Done tt ->
  fst (login s) = Ok tt \/ fst (login s) = Raise (RequestFailed LoginError).
Proof.
  intros Hc Hp. run_facade; rewrite closing_moment; intros;
    first [ congruence | auto ].
Qed.

Lemma probe_page_creation_fails s ctx c :
  _context (self s) = Some ctx -> context_new_page (now s) ctx = Fails c ->
  _set_profile s
  = (Raise (RequestFailed (UnboundLocalError "page")), emit (NewPage ctx) s).
Proof. intros Hc Hp. run_facade. Qed.

Lemma probe_closes_page s ctx p :
  _context (self s) = Some ctx -> context_new_page (now s) ctx = Done p ->
  last (trace (snd (_set_profile s))) = Some (PageClose p).
Proof. intros Hc Hp. run_facade; apply last_snoc. Qed.

Lemma probe_quiet_when_page_closes s ctx p :
  _context (self s) = Some ctx -> context_new_page (now s) ctx = Done p ->
  page_close (Nat.pred (now (snd (_set_profile s)))) p = Done tt ->
  fst (_set_profile s) = Ok tt.
Proof.
  intros Hc Hp. run_facade; rewrite closing_moment; intros;
    first [ congruence | auto ].
Qed.

End LoginProbe.

(** C3 at the failing input: when the page cannot be created, [login]
    ends in an UnboundLocalError raised by its [finally] block and not in a
    LoginError. *)
Theorem login_unbound_page :
  let E := scripted [0] None None in
  let s := state_of (started false) ∅ in
  context_new_page (now s) 3 = Fails 0
  /\ fst (login s) = Raise (RequestFailed (UnboundLocalError "page"))
  /\ fst (login_body s) = Raise (UnboundLocalError "page")
  /\ calls_since s (snd (login s)) = [NewPage 3].
Proof. repeat split. Qed.

(** C6 at the failing input: when the page cannot be created, the probe
    raises an UnboundLocalError from its [finally] block, and Start, which
    runs the probe, fails with it. *)
Theorem probe_unbound_page :
  let E := scripted [0] None None in
  let s := state_of (started false) ∅ in
  context_new_page (now s) 3 = Fails 0
  /\ fst (_set_profile_body s) = Raise (UnboundLocalError "page")
  /\ fst (_set_profile s) = Raise (RequestFailed (UnboundLocalError "page"))
  /\ is_ok (fst (@__aenter__ (scripted [4] None None)
                   (state_of (__init__ true) ∅))) = false.
Proof. repeat split. Qed.

(** ** Importing cookies *)

#[local] Instance only_calls_preorder : PreOrder only_calls.
Proof.
  split.
  - intros s. repeat split. exists []. symmetry. apply app_nil_r.
  - intros a b c (F1 & C1 & e1 & T1) (F2 & C2 & e2 & T2). repeat split.
    + congruence.
    + congruence.
    + exists (e1 ++ e2). rewrite T2, T1. symmetry. apply app_assoc.
Qed.

Lemma only_calls_call {A} ev (ans : nat -> Outcome A) :
  respects only_calls (call ev ans).
Proof. intros s. repeat split. exists [ev]. reflexivity. Qed.

Lemma only_calls_quiet {A} (m : M A) :
  (forall s, fs (snd (m s)) = fs s
             /\ _context (self (snd (m s))) = _context (self s)
             /\ trace (snd (m s)) = trace s) ->
  respects only_calls m.
Proof.
  intros H s. destruct (H s) as (F & C & T). repeat split; try assumption.
  exists []. rewrite T. symmetry. apply app_nil_r.
Qed.

Section Cookies.

Context {E : Env}.

Lemma only_calls__set_profile : respects only_calls _set_profile.
Proof.
  unfold _set_profile, try_except_request, _set_profile_body, page, attribute.
  repeat first
    [ respects_step
    | solve [ apply only_calls_call ]
    | solve [ apply only_calls_quiet; intros; repeat split ] ].
Qed.

(** [set_cookies], stage by stage. *)
Lemma set_cookies_stages path s :
  set_cookies path s
  = let s0 := emit (ReadFile path) s in
    match fs s !! path with
    | None => (Raise (RequestFailed (FileNotFoundError path)), s0)
    | Some text =>
        match parse_json text with
        | None => (Raise (RequestFailed JSONDecodeError), s0)
        | Some j =>
            match cookies_of_json j with
            | Fails c => (Raise (RequestFailed (External c)), s0)
            | Done cookies =>
                match _context (self s) with
                | None => (Raise (RequestFailed (AttributeError "_context")), s0)
                | Some ctx =>
                    let s1 := emit (AddCookies ctx cookies) s0 in
                    match context_add_cookies (now s0) ctx cookies with
                    | Fails c => (Raise (RequestFailed (External c)), s1)
                    | Done _ =>
                        match _set_profile s1 with
                        | (Raise e, s2) => (Raise (RequestFailed e), s2)
                        | (Ok _, s2) =>
                            try_except_request
                              (ctx <- context ;; save_state ctx SESSION_FILE) s2
                        end
                    end
                end
            end
        end
    end.
Proof.
  unfold set_cookies, set_cookies_body, read_json, normalize_cookies,
    save_state, context, attribute, try_except_request, try_except, bind,
    get_fs, get_self, call, ret, raise, result_of, now.
  simpl.
  repeat (split_match; simpl; simplify_eq/=; try reflexivity).
Qed.

End Cookies.

Lemma persist_stage {E : Env} s ctx :
  _context (self s) = Some ctx ->
  try_except_request (ctx <- context ;; save_state ctx SESSION_FILE) s
  = match context_storage_state (now s) ctx with
    | Done blob =>
        (Ok tt,
         {| self := self s; fs := <[SESSION_FILE := blob]> (fs s);
            trace := trace s ++ [StorageState ctx SESSION_FILE];
            logs := logs s |})
    | Fails c =>
        (Raise (RequestFailed (External c)),
         emit (StorageState ctx SESSION_FILE) s)
    end.
Proof. intros Hc. run_facade. Qed.

(** C8: [set_cookies] reads the file at [path] first and fails when it is
    missing or is not valid JSON; when it returns normally it has read the
    file, installed the cookies that normalising the parsed document gave,
    run the authentication probe and then stored the Session State, in
    that order, and the Session State file holds what the context
    returned. *)
Theorem set_cookies_sequence {E : Env} (path : Path) (s : State) :
  let r := set_cookies path s in
  (fs s !! path = None ->
   r = (Raise (RequestFailed (FileNotFoundError path)),
        emit (ReadFile path) s))
  /\ (forall text,
        fs s !! path = Some text -> parse_json text = None ->
        r = (Raise (RequestFailed JSONDecodeError), emit (ReadFile path) s))
  /\ (fst r = Ok tt ->
      exists text j cookies ctx blob,
        fs s !! path = Some text
        /\ parse_json text = Some j
        /\ cookies_of_json j = Done cookies
        /\ _context (self s) = Some ctx
        /\ let s1 := emit (AddCookies ctx cookies) (emit (ReadFile path) s) in
           let s2 := snd (_set_profile s1) in
           fst (_set_profile s1) = Ok tt
           /\ context_storage_state (now s2) ctx = Done blob
           /\ calls_since s (snd r)
              = [ReadFile path; AddCookies ctx cookies]
                ++ calls_since s1 s2 ++ [StorageState ctx SESSION_FILE]
           /\ fs (snd r) = <[SESSION_FILE := blob]> (fs s)).
Proof.
  intros r. subst r. rewrite set_cookies_stages. cbv zeta.
  split; [ | split ].
  - intros ->. reflexivity.
  - intros text -> ->. reflexivity.
  - destruct (fs s !! path) as [text | ]; [ | discriminate ].
    destruct (parse_json text) as [j | ] eqn:Hj; [ | discriminate ].
    destruct (cookies_of_json j) as [cookies | ] eqn:Hk; [ | discriminate ].
    destruct (_context (self s)) as [ctx | ] eqn:Hctx; [ | discriminate ].
    destruct (context_add_cookies _ ctx cookies); [ | discriminate ].
    set (s1 := emit (AddCookies ctx cookies) (emit (ReadFile path) s)).
    pose proof (only_calls__set_profile s1) as (Hfs & Hc & evs & Htr).
    destruct (_set_profile s1) as [[[] | e] s2] eqn:Hprobe; [ | discriminate ].
    simpl in Hfs, Hc, Htr. rewrite Hctx in Hc.
    rewrite (persist_stage s2 ctx Hc).
    destruct (context_storage_state (now s2) ctx) as [blob | ] eqn:Hblob;
      [ | discriminate ].
    simpl. intros _. exists text, j, cookies, ctx, blob.
    fold s1. rewrite Hprobe. cbn [fst snd].
    rewrite (calls_since_app s1 s2 evs Htr).
    split_and!; try done.
    + apply calls_since_app. simpl. rewrite Htr. simpl.
      rewrite <- !app_assoc. reflexivity.
    + simpl. rewrite Hfs. reflexivity.
Qed.

Lemma set_cookies_sequence_witness :
  let E := scripted [] (Some "Hola") None in
  let s := state_of (started false) {[ "cookies.json" := sample_export ]} in
  let r := set_cookies "cookies.json" s in
  fst r = Ok tt
  /\ exists text j cookies ctx blob,
       fs s !! "cookies.json" = Some text
       /\ parse_json text = Some j
       /\ cookies_of_json j = Done cookies
       /\ _context (self s) = Some ctx
       /\ let s1 := emit (AddCookies ctx cookies)
                         (emit (ReadFile "cookies.json") s) in
          let s2 := snd (_set_profile s1) in
          fst (_set_profile s1) = Ok tt
          /\ context_storage_state (now s2) ctx = Done blob
          /\ calls_since s (snd r)
             = [ReadFile "cookies.json"; AddCookies ctx cookies]
               ++ calls_since s1 s2 ++ [StorageState ctx SESSION_FILE]
          /\ fs (snd r) = <[SESSION_FILE := blob]> (fs s).
Proof.
  split; [ reflexivity | ].
  exact (proj2 (proj2 (@set_cookies_sequence (scripted [] (Some "Hola") None)
                         "cookies.json"
                         (state_of (started false)
                            {[ "cookies.json" := sample_export ]})))
           eq_refl).
Defined.

Lemma set_cookies_flag_blind {E : Env} (path : Path) (s : State) (b : bool) :
  authentication_required (fst (set_cookies path s)) = false
  /\ authentication_required (fst (set_cookies path (with_flag b s))) = false
  /\ fst (set_cookies path (with_flag b s)) = fst (set_cookies path s)
  /\ trace (snd (set_cookies path (with_flag b s)))
     = trace (snd (set_cookies path s))
  /\ fs (snd (set_cookies path (with_flag b s)))
     = fs (snd (set_cookies path s)).
Proof.
  unfold with_flag.
  run_facade.
  all: repeat split.
Qed.

(** What [set_cookies] does once the export is read, parsed and
    normalised, whatever the flag. *)
Lemma set_cookies_proceeds {E : Env} (path : Path) (s : State) (b : bool)
    (text : string) (j : Json) (cookies : list Cookie) (ctx : Handle) :
  fs s !! path = Some text ->
  parse_json text = Some j ->
  cookies_of_json j = Done cookies ->
  _context (self s) = Some ctx ->
  let s0 := with_flag b s in
  let r := set_cookies path s0 in
  let s1 := emit (AddCookies ctx cookies) (emit (ReadFile path) s0) in
  let s2 := snd (_set_profile s1) in
  calls_since s0 (snd r)
  = [ReadFile path; AddCookies ctx cookies]
    ++ match context_add_cookies (S (now s)) ctx cookies with
       | Fails _ => []
       | Done _ =>
           calls_since s1 s2
           ++ (if is_ok (fst (_set_profile s1))
               then [StorageState ctx SESSION_FILE] else [])
       end
  /\ fst r
     = match context_add_cookies (S (now s)) ctx cookies with
       | Fails c => Raise (RequestFailed (External c))
       | Done _ =>
           match fst (_set_profile s1) with
           | Raise e => Raise (RequestFailed e)
           | Ok _ =>
               match context_storage_state (now s2) ctx with
               | Done _ => Ok tt
               | Fails c => Raise (RequestFailed (External c))
               end
           end
       end
  /\ (forall blob,
        context_add_cookies (S (now s)) ctx cookies = Done tt ->
        fst (_set_profile s1) = Ok tt ->
        context_storage_state (now s2) ctx = Done blob ->
        fs (snd r) = <[SESSION_FILE := blob]> (fs s)).
Proof.
  intros Hf Hj Hk Hc s0 r s1 s2. subst r s2.
  rewrite set_cookies_stages. cbv zeta.
  replace (fs s0) with (fs s) by reflexivity.
  replace (_context (self s0)) with (_context (self s)) by reflexivity.
  rewrite Hf, Hj, Hk, Hc, now_emit.
  replace (now s0) with (now s) by reflexivity.
  fold s1.
  destruct (context_add_cookies (S (now s)) ctx cookies) as [[] | c].
  - pose proof (only_calls__set_profile s1) as (Hfs & Hcx & evs & Htr).
    rewrite (calls_since_app s1 _ evs Htr).
    destruct (_set_profile s1) as [[[] | e] s2].
    + simpl in Hfs, Hcx, Htr. cbn [fst snd is_ok].
      rewrite Hc in Hcx.
      rewrite (persist_stage s2 ctx Hcx).
      destruct (context_storage_state (now s2) ctx) as [blob | c];
        cbn [fst snd]; split_and!.
      * apply calls_since_app. simpl. rewrite Htr. simpl.
        rewrite <- !app_assoc. reflexivity.
      * reflexivity.
      * intros blob' _ _ Hb. injection Hb as <-. simpl. rewrite Hfs.
        reflexivity.
      * apply calls_since_app. simpl. rewrite Htr. simpl.
        rewrite <- !app_assoc. reflexivity.
      * reflexivity.
      * intros blob' _ _ Hb. discriminate Hb.
    + simpl in Htr. cbn [fst snd is_ok]. split_and!.
      * apply calls_since_app. rewrite Htr. simpl.
        rewrite app_nil_r, <- !app_assoc. reflexivity.
      * reflexivity.
      * intros blob' _ Hp. discriminate Hp.
  - cbn [fst snd]. split_and!.
    + apply calls_since_app. simpl. rewrite <- !app_assoc. reflexivity.
    + reflexivity.
    + intros blob' Ha. discriminate Ha.
Qed.

(** C10: [set_cookies] has no auth gate.  It never fails with the
    authentication-required error, and its outcome, the calls it makes and
    the files it leaves are the same whatever the value of the
    Authenticated flag at call time.  With the flag false as with any
    value, once the export is read, parsed and normalised on a facade that
    holds a context, it goes on: the cookies are installed; if that call
    succeeds the probe is run; if the probe returns the Session State is
    stored, and the file holds it when that call succeeds.  It stops only
    at a call that fails, never at the flag. *)
Theorem set_cookies_not_gated {E : Env} (path : Path) (s : State) (b : bool) :
  let r := set_cookies path s in
  let r' := set_cookies path (with_flag b s) in
  authentication_required (fst r) = false
  /\ authentication_required (fst r') = false
  /\ fst r' = fst r
  /\ trace (snd r') = trace (snd r)
  /\ fs (snd r') = fs (snd r)
  /\ (forall text j cookies ctx,
        fs s !! path = Some text ->
        parse_json text = Some j ->
        cookies_of_json j = Done cookies ->
        _context (self s) = Some ctx ->
        let s0 := with_flag b s in
        let s1 := emit (AddCookies ctx cookies) (emit (ReadFile path) s0) in
        let s2 := snd (_set_profile s1) in
        calls_since s0 (snd r')
        = [ReadFile path; AddCookies ctx cookies]
          ++ match context_add_cookies (S (now s)) ctx cookies with
             | Fails _ => []
             | Done _ =>
                 calls_since s1 s2
                 ++ (if is_ok (fst (_set_profile s1))
                     then [StorageState ctx SESSION_FILE] else [])
             end
        /\ fst r'
           = match context_add_cookies (S (now s)) ctx cookies with
             | Fails c => Raise (RequestFailed (External c))
             | Done _ =>
                 match fst (_set_profile s1) with
                 | Raise e => Raise (RequestFailed e)
                 | Ok _ =>
                     match context_storage_state (now s2) ctx with
                     | Done _ => Ok tt
                     | Fails c => Raise (RequestFailed (External c))
                     end
                 end
             end
        /\ (forall blob,
              context_add_cookies (S (now s)) ctx cookies = Done tt ->
              fst (_set_profile s1) = Ok tt ->
              context_storage_state (now s2) ctx = Done blob ->
              fs (snd r') = <[SESSION_FILE := blob]> (fs s))).
Proof.
  intros r r'. subst r r'.
  destruct (set_cookies_flag_blind path s b) as (H1 & H2 & H3 & H4 & H5).
  split_and!; try assumption.
  intros text j cookies ctx Hf Hj Hk Hc.
  exact (set_cookies_proceeds path s b text j cookies ctx Hf Hj Hk Hc).
Qed.

Lemma set_cookies_not_gated_witness :
  let E := scripted [] (Some "Hola") None in
  let s := state_of (started false) {[ "cookies.json" := sample_export ]} in
  let r := set_cookies "cookies.json" (with_flag false s) in
  (authenticated (self (with_flag false s)) = false
   /\ fs s !! "cookies.json" = Some sample_export
   /\ parse_json sample_export = Some sample_json
   /\ cookies_of_json sample_json = Done [sample_cookie]
   /\ _context (self s) = Some 3
   /\ context_add_cookies (S (now s)) 3 [sample_cookie] = Done tt)
  /\ fst r = Ok tt
  /\ calls_since (with_flag false s) (snd r)
     = [ReadFile "cookies.json"; AddCookies 3 [sample_cookie]; NewPage 3;
        Goto 102 BASE_URL; TextContent 102 "h1.h1.f-text-34" 5000;
        PageClose 102; StorageState 3 SESSION_FILE]
  /\ fs (snd r) = <[SESSION_FILE := "cookies-and-storage"]> (fs s)
  /\ authenticated (self (snd r)) = true.
Proof.
  intros E s r.
  assert (Hf : fs s !! "cookies.json" = Some sample_export) by reflexivity.
  assert (Hj : parse_json sample_export = Some sample_json) by reflexivity.
  assert (Hk : cookies_of_json sample_json = Done [sample_cookie])
    by reflexivity.
  assert (Hc : _context (self s) = Some 3) by reflexivity.
  split; [ split_and!; reflexivity | ].
  destruct (@set_cookies_not_gated E "cookies.json" s false)
    as (_ & _ & _ & _ & _ & H).
  destruct (H sample_export sample_json [sample_cookie] 3 Hf Hj Hk Hc)
    as (Hcalls & Hres & Hfs).
  split_and!.
  - exact Hres.
  - exact Hcalls.
  - exact (Hfs "cookies-and-storage" eq_refl eq_refl eq_refl).
  - reflexivity.
Defined.

(** * Further properties of the class *)

(** Moments of calls, counted from the start of the operation. *)
Ltac clock := rewrite ?length_app; simpl; rewrite ?Nat.add_1_r.

(** ** Login *)

(** X1: when [login] returns normally, Authenticated is true and the calls
    were, in this order: open a page, load the login URL, wait up to
    120000 ms for the greeting element, store the Session State at
    SESSION_FILE, close the page. *)
Theorem login_returns_normally {E : Env} (s : State) :
  fst (login s) = Ok tt ->
  exists ctx p,
    _context (self s) = Some ctx
    /\ authenticated (self (snd (login s))) = true
    /\ calls_since s (snd (login s))
       = [NewPage ctx; Goto p LOGIN_URL;
          WaitForSelector p "h1.h1.f-text-34" 120000;
          StorageState ctx SESSION_FILE; PageClose p].
Proof.
  unfold calls_since. run_facade. intros _.
  eexists _, _. repeat split.
  rewrite <- !app_assoc. apply drop_app_length.
Qed.

Lemma login_returns_normally_witness :
  let E := scripted [] None (Some 7) in
  let s := state_of (started false) ∅ in
  fst (login s) = Ok tt
  /\ exists ctx p,
       _context (self s) = Some ctx
       /\ authenticated (self (snd (login s))) = true
       /\ calls_since s (snd (login s))
          = [NewPage ctx; Goto p LOGIN_URL;
             WaitForSelector p "h1.h1.f-text-34" 120000;
             StorageState ctx SESSION_FILE; PageClose p].
Proof.
  intros E s.
  assert (H : fst (login s) = Ok tt) by reflexivity.
  split; [ exact H | exact (@login_returns_normally E s H) ].
Defined.

(** X2: once [login] has opened its page, closing that page is the last
    call it makes, on every exit path. *)
Theorem login_always_closes_its_page {E : Env} (s : State) (ctx : Handle)
    (p : Page) :
  _context (self s) = Some ctx ->
  context_new_page (now s) ctx = Done p ->
  last (trace (snd (login s))) = Some (PageClose p).
Proof.
  intros Hc Hp. unfold_facade. simpl in *. rewrite Hc. simpl. rewrite Hp.
  simpl. repeat (split_match; simpl; simplify_eq/=); apply last_snoc.
Qed.

Lemma login_always_closes_its_page_witness :
  let E := scripted [1] None None in
  let s := state_of (started false) ∅ in
  _context (self s) = Some 3
  /\ context_new_page (now s) 3 = Done 100
  /\ last (trace (snd (login s))) = Some (PageClose 100).
Proof.
  intros E s.
  assert (Hc : _context (self s) = Some 3) by reflexivity.
  assert (Hp : context_new_page (now s) 3 = Done 100) by reflexivity.
  split; [ exact Hc | split; [ exact Hp | ] ].
  exact (@login_always_closes_its_page E s 3 100 Hc Hp).
Defined.

(** X3: once [login] has opened its page and closing it succeeds, the only
    failure the caller can get is LoginError: a navigation error, a
    timeout, a missing element and a failed save all end in it. *)
Theorem login_fails_with_login_error {E : Env} (s : State) (ctx : Handle)
    (p : Page) :
  _context (self s) = Some ctx ->
  context_new_page (now s) ctx = Done p ->
  page_close (Nat.pred (now (snd (login s)))) p = Done tt ->
  fst (login s) = Ok tt \/ fst (login s) = Raise (RequestFailed LoginError).
Proof.
  intros Hc Hp. unfold_facade. simpl in *. rewrite Hc. simpl. rewrite Hp.
  simpl. repeat (split_match; simpl; simplify_eq/=);
    rewrite closing_moment; intros Hk; first [ congruence | auto ].
Qed.

Lemma login_fails_with_login_error_witness :
  let E := scripted [1] None None in
  let s := state_of (started false) ∅ in
  _context (self s) = Some 3
  /\ context_new_page (now s) 3 = Done 100
  /\ page_close (Nat.pred (now (snd (login s)))) 100 = Done tt
  /\ (fst (login s) = Ok tt
      \/ fst (login s) = Raise (RequestFailed LoginError)).
Proof.
  intros E s.
  assert (Hc : _context (self s) = Some 3) by reflexivity.
  assert (Hp : context_new_page (now s) 3 = Done 100) by reflexivity.
  assert (Hk : page_close (Nat.pred (now (snd (login s)))) 100 = Done tt)
    by reflexivity.
  split; [ exact Hc | split; [ exact Hp | split; [ exact Hk | ] ] ].
  exact (@login_fails_with_login_error E s 3 100 Hc Hp Hk).
Defined.

(** X4: [login] raises the flag before it stores the Session State: when
    the greeting element appears and storing the state fails, [login]
    fails and Authenticated is nevertheless true afterwards. *)
Theorem login_failure_can_leave_flag_set {E : Env} (s : State) (ctx : Handle)
    (p : Page) (element : Handle) (c : nat) :
  _context (self s) = Some ctx ->
  context_new_page (now s) ctx = Done p ->
  page_goto (S (now s)) p LOGIN_URL = Done tt ->
  page_wait_for_selector (S (S (now s))) p "h1.h1.f-text-34" 120000
  = Done (Some element) ->
  context_storage_state (S (S (S (now s)))) ctx = Fails c ->
  is_ok (fst (login s)) = false
  /\ authenticated (self (snd (login s))) = true
  /\ calls_since s (snd (login s))
     = [NewPage ctx; Goto p LOGIN_URL;
        WaitForSelector p "h1.h1.f-text-34" 120000;
        StorageState ctx SESSION_FILE; PageClose p].
Proof.
  intros Hc Hp Hg Hw Hs. unfold calls_since.
  unfold_facade. simpl in *.
  change (2 * 60 * 1000)%Z with 120000%Z.
  repeat (progress (rewrite ?Hc, ?Hp, ?Hg, ?Hw, ?Hs; simpl; clock)).
  destruct (page_close _ p); simpl; repeat split;
    rewrite <- !app_assoc; apply drop_app_length.
Qed.

Lemma login_failure_can_leave_flag_set_witness :
  let E := scripted [3] None (Some 7) in
  let s := state_of (started false) ∅ in
  (_context (self s) = Some 3
   /\ context_new_page (now s) 3 = Done 100
   /\ page_goto (S (now s)) 100 LOGIN_URL = Done tt
   /\ page_wait_for_selector (S (S (now s))) 100 "h1.h1.f-text-34" 120000
      = Done (Some 7)
   /\ context_storage_state (S (S (S (now s)))) 3 = Fails 3)
  /\ is_ok (fst (login s)) = false
  /\ authenticated (self (snd (login s))) = true
  /\ calls_since s (snd (login s))
     = [NewPage 3; Goto 100 LOGIN_URL;
        WaitForSelector 100 "h1.h1.f-text-34" 120000;
        StorageState 3 SESSION_FILE; PageClose 100].
Proof.
  intros E s.
  split; [ repeat split | ].
  exact (@login_failure_can_leave_flag_set E s 3 100 7 3
           eq_refl eq_refl eq_refl eq_refl eq_refl).
Defined.

(** ** The authentication probe *)

(** X5: once the probe has opened its page, closing that page is the last
    call it makes, on every exit path. *)
Theorem probe_always_closes_its_page {E : Env} (s : State) (ctx : Handle)
    (p : Page) :
  _context (self s) = Some ctx ->
  context_new_page (now s) ctx = Done p ->
  last (trace (snd (_set_profile s))) = Some (PageClose p).
Proof.
  intros Hc Hp. unfold_facade. simpl in *. rewrite Hc. simpl. rewrite Hp.
  simpl. repeat (split_match; simpl; simplify_eq/=); apply last_snoc.
Qed.

Lemma probe_always_closes_its_page_witness :
  let E := scripted [2] None None in
  let s := state_of (started false) ∅ in
  _context (self s) = Some 3
  /\ context_new_page (now s) 3 = Done 100
  /\ last (trace (snd (_set_profile s))) = Some (PageClose 100).
Proof.
  intros E s.
  assert (Hc : _context (self s) = Some 3) by reflexivity.
  assert (Hp : context_new_page (now s) 3 = Done 100) by reflexivity.
  split; [ exact Hc | split; [ exact Hp | ] ].
  exact (@probe_always_closes_its_page E s 3 100 Hc Hp).
Defined.

(** X6: once the probe has opened its page and closing it succeeds, the
    probe returns normally: a navigation error and a missing greeting
    element are swallowed. *)
Theorem probe_swallows_failures {E : Env} (s : State) (ctx : Handle)
    (p : Page) :
  _context (self s) = Some ctx ->
  context_new_page (now s) ctx = Done p ->
  page_close (Nat.pred (now (snd (_set_profile s)))) p = Done tt ->
  fst (_set_profile s) = Ok tt.
Proof.
  intros Hc Hp. unfold_facade. simpl in *. rewrite Hc. simpl. rewrite Hp.
  simpl. repeat (split_match; simpl; simplify_eq/=);
    rewrite closing_moment; intros Hk; first [ congruence | auto ].
Qed.

Lemma probe_swallows_failures_witness :
  let E := scripted [1] None None in
  let s := state_of (started false) ∅ in
  _context (self s) = Some 3
  /\ context_new_page (now s) 3 = Done 100
  /\ page_close (Nat.pred (now (snd (_set_profile s)))) 100 = Done tt
  /\ fst (_set_profile s) = Ok tt.
Proof.
  intros E s.
  assert (Hc : _context (self s) = Some 3) by reflexivity.
  assert (Hp : context_new_page (now s) 3 = Done 100) by reflexivity.
  assert (Hk : page_close (Nat.pred (now (snd (_set_profile s)))) 100
               = Done tt) by reflexivity.
  split; [ exact Hc | split; [ exact Hp | split; [ exact Hk | ] ] ].
  exact (@probe_swallows_failures E s 3 100 Hc Hp Hk).
Defined.

(** X7: the probe changes nothing of the facade but the flag, and writes
    no file.  The flag is raised exactly when the page opened, the home
    page loaded and the greeting element had a non-empty text; a missing
    text and an empty one leave it as it was, and so does every failure,
    whether or not closing the page succeeds. *)
Theorem probe_effect {E : Env} (s : State) :
  self (snd (_set_profile s))
  = self (with_flag (authenticated (self s) || greeting_seen s) s)
  /\ fs (snd (_set_profile s)) = fs s.
Proof.
  unfold greeting_seen, with_flag. unfold_facade. simpl.
  change (5 * 1000)%Z with 5000%Z.
  destruct s as [[h a pw br cx] files tr lg]. simpl.
  repeat (split_match; simpl; clock; simplify_eq/=);
    rewrite ?orb_true_r, ?orb_false_r; auto.
Qed.

(** ** The handles of the facade *)

#[local] Instance handles_kept_preorder : PreOrder handles_kept.
Proof.
  split.
  - intros s. repeat split.
  - intros a b c (H1 & P1 & B1 & C1) (H2 & P2 & B2 & C2).
    repeat split; congruence.
Qed.

Lemma handles_kept_call {A} ev (ans : nat -> Outcome A) :
  respects handles_kept (call ev ans).
Proof. intros s. repeat split. Qed.

Lemma handles_kept_logger_info msg : respects handles_kept (logger_info msg).
Proof. intros s. repeat split. Qed.

Lemma handles_kept_update_fs f : respects handles_kept (update_fs f).
Proof. intros s. repeat split. Qed.

Lemma handles_kept_set_authenticated b :
  respects handles_kept (set_authenticated b).
Proof. intros s. repeat split. Qed.

Create HintDb handles_kept.
#[local] Hint Resolve handles_kept_call handles_kept_logger_info
  handles_kept_update_fs handles_kept_set_authenticated : handles_kept.

Ltac handles_kept_tac :=
  repeat first [ respects_step | assumption
               | solve [ auto with handles_kept ]
               | solve [ intros s; repeat split ] ].

Section Handles.

Context {E : Env}.

Lemma handles_kept__set_profile : respects handles_kept _set_profile.
Proof.
  unfold _set_profile, try_except_request, _set_profile_body, page, attribute.
  handles_kept_tac.
Qed.

Lemma handles_kept_login : respects handles_kept login.
Proof.
  unfold login, try_except_request, login_body, page, context, attribute,
    save_state.
  handles_kept_tac.
Qed.

Lemma handles_kept_logout : respects handles_kept logout.
Proof. unfold logout, try_except_request, logout_body. handles_kept_tac. Qed.

Lemma handles_kept_fetch_unit url : respects handles_kept (fetch_unit url).
Proof.
  unfold fetch_unit, try_except_request, login_required, fetch_unit_body,
    context, attribute.
  handles_kept_tac.
Qed.

Lemma handles_kept_fetch_course url : respects handles_kept (fetch_course url).
Proof.
  unfold fetch_course, try_except_request, login_required, fetch_course_body,
    context, attribute.
  handles_kept_tac.
Qed.

Lemma handles_kept_download url kwargs :
  respects handles_kept (download url kwargs).
Proof.
  pose proof (handles_kept_fetch_unit url) as Hu.
  pose proof (handles_kept_fetch_course url) as Hc.
  unfold download, try_except_request, login_required, download_body,
    context, attribute.
  handles_kept_tac.
Qed.

Lemma handles_kept_set_cookies path : respects handles_kept (set_cookies path).
Proof.
  pose proof handles_kept__set_profile as Hp.
  unfold set_cookies, try_except_request, set_cookies_body, read_json,
    normalize_cookies, context, attribute, save_state.
  handles_kept_tac.
Qed.

Lemma handles_kept___aexit__ : respects handles_kept __aexit__.
Proof. unfold __aexit__, attribute. handles_kept_tac. Qed.

Lemma handles_kept_run_op op s :
  no_start op = true -> handles_kept s (run_op op s).
Proof.
  destruct op; simpl; intros H; try discriminate H.
  - apply handles_kept___aexit__.
  - apply handles_kept_login.
  - apply handles_kept_logout.
  - apply handles_kept_fetch_unit.
  - apply handles_kept_fetch_course.
  - apply handles_kept_download.
  - apply handles_kept_set_cookies.
  - apply handles_kept__set_profile.
Qed.

Lemma handles_kept_exec ops : forall s,
  forallb no_start ops = true -> handles_kept s (exec ops s).
Proof.
  induction ops as [ | op ops IH ]; intros s H; simpl in *.
  - reflexivity.
  - apply andb_prop in H as [H1 H2].
    etransitivity; [ apply handles_kept_run_op; exact H1 | apply IH; exact H2 ].
Qed.

(** What a Start that returns normally has done. *)
Lemma __aenter___ok s :
  fst (__aenter__ s) = Ok tt ->
  exists pw browser ctx rest,
    playwright_start (now s) = Done pw
    /\ firefox_launch (S (now s)) pw (headless (self s)) = Done browser
    /\ browser_new_context (S (S (now s))) browser = Done ctx
    /\ headless (self (snd (__aenter__ s))) = headless (self s)
    /\ _playwright (self (snd (__aenter__ s))) = Some pw
    /\ _browser (self (snd (__aenter__ s))) = Some browser
    /\ _context (self (snd (__aenter__ s))) = Some ctx
    /\ calls_since s (snd (__aenter__ s))
       = [PlaywrightStart; FirefoxLaunch pw (headless (self s));
          NewContext browser true true; ApplyStealth ctx] ++ rest.
Proof.
  unfold calls_since. run_facade; intros _.
  all: repeat match goal with
              | H : context [ length (_ ++ _) ] |- _ =>
                  rewrite length_app in H; simpl in H;
                  rewrite Nat.add_1_r in H
              end.
  all: eexists _, _, _, _; split_and!; try eassumption; try reflexivity.
  all: rewrite <- !app_assoc, drop_app_length; simpl; reflexivity.
Qed.

End Handles.

Lemma wrapped_result_of {A} (o : Outcome A) :
  match o with
  | Done a => Ok a
  | Fails c => Raise (RequestFailed (External c))
  end = wrapped (result_of o).
Proof. destruct o; reflexivity. Qed.

Ltac keeps_wired :=
  unfold wired; intros (I1 & I2 & I3); run_facade;
  split_and!; intros; simpl in *;
  repeat match goal with
         | Heq : ?x = None, H : is_Some ?x |- _ => rewrite Heq in H
         end;
  first [ congruence | solve [ eauto ]
        | rewrite ?is_Some_alt in *; simpl in *; naive_solver ].

Section Wired.

Context {E : Env}.

Lemma wired_run_op op s : wired s -> wired (run_op op s).
Proof. destruct op; simpl; keeps_wired. Qed.

Lemma wired_exec ops : forall s, wired s -> wired (exec ops s).
Proof.
  induction ops as [ | op ops IH ]; intros s I; simpl.
  - exact I.
  - apply IH. apply wired_run_op. exact I.
Qed.

Lemma wired_new h files tr lg :
  wired {| self := __init__ h; fs := files; trace := tr; logs := lg |}.
Proof.
  unfold wired. simpl. split_and!; intros H; try discriminate H;
    destruct H as [x Hx]; discriminate Hx.
Qed.

End Wired.

(** X8: when Start returns normally, the facade holds the driver, the
    browser and the context that the calls returned, in that order of
    creation: the driver is started, firefox is launched with the headless
    setting given at construction, a context is created with is_mobile and
    java_script_enabled true, and the stealth layer is applied to it before
    any other call. *)
Theorem start_returns_normally {E : Env} (s : State) :
  fst (__aenter__ s) = Ok tt ->
  exists pw browser ctx rest,
    playwright_start (now s) = Done pw
    /\ firefox_launch (S (now s)) pw (headless (self s)) = Done browser
    /\ browser_new_context (S (S (now s))) browser = Done ctx
    /\ headless (self (snd (__aenter__ s))) = headless (self s)
    /\ _playwright (self (snd (__aenter__ s))) = Some pw
    /\ _browser (self (snd (__aenter__ s))) = Some browser
    /\ _context (self (snd (__aenter__ s))) = Some ctx
    /\ calls_since s (snd (__aenter__ s))
       = [PlaywrightStart; FirefoxLaunch pw (headless (self s));
          NewContext browser true true; ApplyStealth ctx] ++ rest.
Proof. apply __aenter___ok. Qed.

Lemma start_returns_normally_witness :
  let E := scripted [] (Some "Hola") None in
  let s := state_of (__init__ true) ∅ in
  fst (__aenter__ s) = Ok tt
  /\ exists pw browser ctx rest,
       playwright_start (now s) = Done pw
       /\ firefox_launch (S (now s)) pw (headless (self s)) = Done browser
       /\ browser_new_context (S (S (now s))) browser = Done ctx
       /\ headless (self (snd (__aenter__ s))) = headless (self s)
       /\ _playwright (self (snd (__aenter__ s))) = Some pw
       /\ _browser (self (snd (__aenter__ s))) = Some browser
       /\ _context (self (snd (__aenter__ s))) = Some ctx
       /\ calls_since s (snd (__aenter__ s))
          = [PlaywrightStart; FirefoxLaunch pw (headless (self s));
             NewContext browser true true; ApplyStealth ctx] ++ rest.
Proof.
  intros E s.
  assert (H : fst (__aenter__ s) = Ok tt) by reflexivity.
  split; [ exact H | exact (@start_returns_normally E s H) ].
Defined.

(** X9: no operation other than Start assigns the driver, the browser, the
    context or the headless setting: along any sequence of the other
    operations, Stop and a failed login included, they are what they
    were. *)
Theorem handles_change_only_at_start {E : Env} (ops : list Op) (s : State) :
  forallb no_start ops = true ->
  headless (self (exec ops s)) = headless (self s)
  /\ _playwright (self (exec ops s)) = _playwright (self s)
  /\ _browser (self (exec ops s)) = _browser (self s)
  /\ _context (self (exec ops s)) = _context (self s).
Proof. intros H. exact (handles_kept_exec ops s H). Qed.

Lemma handles_change_only_at_start_witness :
  let E := scripted [2] (Some "Hola") None in
  let s := state_of (started false) ∅ in
  let ops := [Login; SetProfile; Exit; FetchUnit "https://platform/videos/1";
              SetCookies "cookies.json"; Logout; Exit] in
  forallb no_start ops = true
  /\ headless (self (exec ops s)) = headless (self s)
  /\ _playwright (self (exec ops s)) = _playwright (self s)
  /\ _browser (self (exec ops s)) = _browser (self s)
  /\ _context (self (exec ops s)) = _context (self s).
Proof.
  intros E s ops.
  assert (H : forallb no_start ops = true) by reflexivity.
  split; [ exact H | exact (@handles_change_only_at_start E ops s H) ].
Defined.

(** X10: Start, then any operations but Start, then a Stop that returns
    normally: Stop has closed exactly the context, the browser and the
    driver that Start created, in that order. *)
Theorem stop_closes_what_start_created {E : Env} (s0 : State)
    (ops : list Op) :
  fst (__aenter__ s0) = Ok tt ->
  forallb no_start ops = true ->
  fst (__aexit__ (exec ops (snd (__aenter__ s0)))) = Ok tt ->
  exists pw browser ctx,
    playwright_start (now s0) = Done pw
    /\ firefox_launch (S (now s0)) pw (headless (self s0)) = Done browser
    /\ browser_new_context (S (S (now s0))) browser = Done ctx
    /\ calls_since (exec ops (snd (__aenter__ s0)))
         (snd (__aexit__ (exec ops (snd (__aenter__ s0)))))
       = [ContextClose ctx; BrowserClose browser; PlaywrightStop pw].
Proof.
  intros Hstart Hops Hstop.
  destruct (__aenter___ok s0 Hstart)
    as (pw & browser & ctx & rest & Hpw & Hbr & Hctx & _ & Ap & Ab & Ac & _).
  destruct (handles_kept_exec ops (snd (__aenter__ s0)) Hops)
    as (_ & Kp & Kb & Kc).
  rewrite Ap in Kp. rewrite Ab in Kb. rewrite Ac in Kc.
  exists pw, browser, ctx. split_and!; try assumption.
  revert Hstop.
  rewrite (__aexit___started _ ctx browser pw Kc Kb Kp).
  destruct (context_close _ ctx); [ | discriminate ].
  cbv zeta. destruct (browser_close _ browser); [ | discriminate ].
  intros _. apply calls_since_app. simpl. rewrite <- !app_assoc. reflexivity.
Qed.

Lemma stop_closes_what_start_created_witness :
  let E := scripted [] None (Some 7) in
  let s0 := state_of (__init__ false) ∅ in
  let ops := [Login; Download "https://platform/videos/123-some-slug" [];
              Logout] in
  (fst (__aenter__ s0) = Ok tt
   /\ forallb no_start ops = true
   /\ fst (__aexit__ (exec ops (snd (__aenter__ s0)))) = Ok tt)
  /\ exists pw browser ctx,
       playwright_start (now s0) = Done pw
       /\ firefox_launch (S (now s0)) pw (headless (self s0)) = Done browser
       /\ browser_new_context (S (S (now s0))) browser = Done ctx
       /\ calls_since (exec ops (snd (__aenter__ s0)))
            (snd (__aexit__ (exec ops (snd (__aenter__ s0)))))
          = [ContextClose ctx; BrowserClose browser; PlaywrightStop pw].
Proof.
  intros E s0 ops.
  assert (H1 : fst (__aenter__ s0) = Ok tt) by reflexivity.
  assert (H2 : forallb no_start ops = true) by reflexivity.
  assert (H3 : fst (__aexit__ (exec ops (snd (__aenter__ s0)))) = Ok tt)
    by reflexivity.
  split; [ split_and!; assumption | ].
  exact (@stop_closes_what_start_created E s0 ops H1 H2 H3).
Defined.

(** X11: in every state a client can reach from a new facade, whatever the
    operations and whatever the environment answers, the attributes exist
    in the order Start creates them and the flag is true only on a facade
    that holds a context: Authenticated implies a context, a context
    implies a browser, a browser implies a driver. *)
Theorem facade_is_wired {E : Env} (h : bool) (files : gmap string string)
    (tr : list Event) (lg : list string) (ops : list Op) :
  wired (exec ops {| self := __init__ h; fs := files; trace := tr;
                     logs := lg |}).
Proof. apply wired_exec. apply wired_new. Qed.

(** ** What the operations leave alone, and how they compose *)

(** X12: Stop, [logout], [fetch_unit], [fetch_course] and [download] assign
    no attribute of the facade: whatever they return or raise, the object,
    its flag and its handles, is exactly as before. *)
Theorem reading_operations_keep_facade {E : Env} (op : Op) (s : State) :
  reads_only op = true -> self (run_op op s) = self s.
Proof.
  destruct op; simpl; intros H; try discriminate H; run_facade.
Qed.

Lemma reading_operations_keep_facade_witness :
  let E := scripted [1] None None in
  let s := state_of (started true) ∅ in
  let op := Download "https://platform/videos/123-some-slug" [] in
  reads_only op = true /\ self (run_op op s) = self s.
Proof.
  intros E s op.
  assert (H : reads_only op = true) by reflexivity.
  split; [ exact H | exact (@reading_operations_keep_facade E op s H) ].
Defined.

Lemma login_ok_started {E : Env} s :
  fst (login s) = Ok tt ->
  exists ctx,
    _context (self s) = Some ctx
    /\ authenticated (self (snd (login s))) = true.
Proof. run_facade. intros _. eexists. split; reflexivity. Qed.

(** X13: a [login] that returns normally opens the gate: right after it,
    [fetch_unit] and [fetch_course] reach the collector, once, with the
    context of the facade and the given URL, and hand back its answer. *)
Theorem login_opens_the_gate {E : Env} (s : State) (url : string) :
  fst (login s) = Ok tt ->
  exists ctx,
    _context (self s) = Some ctx
    /\ fetch_unit url (snd (login s))
       = (wrapped (result_of
                     (collectors_fetch_unit (now (snd (login s))) ctx url)),
          emit (CollectUnit ctx url) (snd (login s)))
    /\ fetch_course url (snd (login s))
       = (wrapped (result_of
                     (collectors_fetch_course (now (snd (login s))) ctx url)),
          emit (CollectCourse ctx url) (snd (login s))).
Proof.
  intros H.
  destruct (login_ok_started s H) as (ctx & Hc & Ha).
  pose proof (handles_kept_login s) as (_ & _ & _ & Kc).
  exists ctx. split; [ exact Hc | ].
  rewrite Hc in Kc.
  rewrite (fetch_unit_open url _ ctx Ha Kc), (fetch_course_open url _ ctx Ha Kc).
  rewrite !wrapped_result_of. split; reflexivity.
Qed.

Lemma login_opens_the_gate_witness :
  let E := scripted [] None (Some 7) in
  let s := state_of (started false) ∅ in
  let url := "https://platform/videos/123-some-slug" in
  fst (login s) = Ok tt
  /\ exists ctx,
       _context (self s) = Some ctx
       /\ fetch_unit url (snd (login s))
          = (wrapped (result_of
                        (collectors_fetch_unit (now (snd (login s))) ctx url)),
             emit (CollectUnit ctx url) (snd (login s)))
       /\ fetch_course url (snd (login s))
          = (wrapped (result_of
                        (collectors_fetch_course (now (snd (login s))) ctx url)),
             emit (CollectCourse ctx url) (snd (login s))).
Proof.
  intros E s url.
  assert (H : fst (login s) = Ok tt) by reflexivity.
  split; [ exact H | exact (@login_opens_the_gate E s url H) ].
Defined.

(** X14: [logout] does not close the gate: on an authenticated facade,
    [fetch_unit] right after [logout] still reaches the collector and hands
    back its answer. *)
Theorem logout_leaves_the_gate_open {E : Env} (s : State) (ctx : Handle)
    (url : string) :
  authenticated (self s) = true ->
  _context (self s) = Some ctx ->
  fetch_unit url (snd (logout s))
  = (wrapped (result_of
                (collectors_fetch_unit (now (snd (logout s))) ctx url)),
     emit (CollectUnit ctx url) (snd (logout s))).
Proof.
  intros Ha Hc.
  rewrite (fetch_unit_open url (snd (logout s)) ctx Ha Hc).
  rewrite wrapped_result_of. reflexivity.
Qed.

Lemma logout_leaves_the_gate_open_witness :
  let E := scripted [] None None in
  let s := state_of (started true) {[ "state.json" := "saved" ]} in
  let url := "https://platform/videos/123-some-slug" in
  authenticated (self s) = true
  /\ _context (self s) = Some 3
  /\ fetch_unit url (snd (logout s))
     = (wrapped (result_of
                   (collectors_fetch_unit (now (snd (logout s))) 3 url)),
        emit (CollectUnit 3 url) (snd (logout s))).
Proof.
  intros E s url.
  assert (Ha : authenticated (self s) = true) by reflexivity.
  assert (Hc : _context (self s) = Some 3) by reflexivity.
  split; [ exact Ha | split; [ exact Hc | ] ].
  exact (@logout_leaves_the_gate_open E s 3 url Ha Hc).
Defined.

(** X15: [set_cookies] normalises the export before it touches the
    browser: when the file is read and parsed but the normalisation
    rejects it, [set_cookies] fails with that error having made no call but
    the read, so no cookie is installed, the probe is not run and nothing
    is stored. *)
Theorem set_cookies_rejected_export {E : Env} (path : Path) (s : State)
    (text : string) (j : Json) (c : nat) :
  fs s !! path = Some text ->
  parse_json text = Some j ->
  cookies_of_json j = Fails c ->
  set_cookies path s
  = (Raise (RequestFailed (External c)), emit (ReadFile path) s).
Proof.
  intros Hf Hj Hk. rewrite set_cookies_stages. cbv zeta.
  rewrite Hf, Hj, Hk. reflexivity.
Qed.

Lemma set_cookies_rejected_export_witness :
  let E := {| BASE_URL := "https://platform";
              LOGIN_URL := "https://platform/users/sign_in";
              SESSION_FILE := "state.json";
              is_video := fun _ => false; is_lecture := fun _ => false;
              is_quiz := fun _ => false; is_course := fun _ => false;
              parse_json := fun _ => Some (JArr []);
              cookies_of_json := fun _ => Fails 400;
              playwright_start := fun _ => Done 1;
              firefox_launch := fun _ _ _ => Done 2;
              browser_new_context := fun _ _ => Done 3;
              stealth_apply := fun _ _ => Done tt;
              context_restore := fun _ _ _ => Done tt;
              context_storage_state := fun _ _ => Done "";
              context_new_page := fun _ _ => Done 4;
              context_add_cookies := fun _ _ _ => Done tt;
              context_close := fun _ _ => Done tt;
              browser_close := fun _ _ => Done tt;
              playwright_stop := fun _ _ => Done tt;
              page_goto := fun _ _ _ => Done tt;
              page_wait_for_selector := fun _ _ _ _ => Done None;
              page_text_content := fun _ _ _ _ => Done None;
              page_close := fun _ _ => Done tt;
              collectors_fetch_unit := fun _ _ _ => Fails 0;
              collectors_fetch_course := fun _ _ _ => Fails 0;
              download_unit := fun _ _ _ _ _ => Done tt;
              download_course := fun _ _ _ _ => Done tt |} in
  let s := state_of (started false) {[ "cookies.json" := "[]" ]} in
  (fs s !! "cookies.json" = Some "[]"
   /\ parse_json "[]" = Some (JArr [])
   /\ cookies_of_json (JArr []) = Fails 400)
  /\ set_cookies "cookies.json" s
     = (Raise (RequestFailed (External 400)),
        emit (ReadFile "cookies.json") s).
Proof.
  intros E s.
  assert (Hf : fs s !! "cookies.json" = Some "[]") by reflexivity.
  assert (Hj : parse_json "[]" = Some (JArr [])) by reflexivity.
  assert (Hk : cookies_of_json (JArr []) = Fails 400) by reflexivity.
  split; [ split_and!; assumption | ].
  exact (@set_cookies_rejected_export E "cookies.json" s "[]" (JArr []) 400
           Hf Hj Hk).
Defined.

(** X16: [download] reports no partial success: on an authenticated
    facade that holds a context it returns normally only when the URL has a
    known shape and both steps succeeded, the fetch and then the download
    of what was fetched. *)
Theorem download_returns_normally {E : Env} (url : string) (kwargs : Options)
    (s : State) (ctx : Handle) :
  authenticated (self s) = true ->
  _context (self s) = Some ctx ->
  fst (download url kwargs s) = Ok tt ->
  (is_video url || is_lecture url || is_quiz url = true
   /\ exists u,
        collectors_fetch_unit (now s) ctx url = Done u
        /\ download_unit (S (now s)) ctx u (expected_destination u) kwargs
           = Done tt)
  \/ (is_video url || is_lecture url || is_quiz url = false
      /\ is_course url = true
      /\ exists c,
           collectors_fetch_course (now s) ctx url = Done c
           /\ download_course (S (now s)) ctx c kwargs = Done tt).
Proof.
  intros Ha Hc.
  destruct (is_video url || is_lecture url || is_quiz url) eqn:Hu.
  - rewrite (download_unit_url url kwargs s ctx Ha Hc Hu).
    destruct (collectors_fetch_unit (now s) ctx url) as [u | ];
      [ | discriminate ].
    simpl. rewrite now_emit.
    destruct (download_unit _ ctx u _ kwargs) as [[] | ] eqn:Hd;
      [ | discriminate ].
    intros _. left. split; [ reflexivity | ]. exists u. split; auto.
  - destruct (is_course url) eqn:Hk.
    + rewrite (download_course_url url kwargs s ctx Ha Hc Hu Hk).
      destruct (collectors_fetch_course (now s) ctx url) as [c | ];
        [ | discriminate ].
      simpl. rewrite now_emit.
      destruct (download_course _ ctx c kwargs) as [[] | ] eqn:Hd;
        [ | discriminate ].
      intros _. right. split_and!; try reflexivity. exists c. split; auto.
    + rewrite (download_other_url url kwargs s Ha Hu Hk). discriminate.
Qed.

Lemma download_returns_normally_witness :
  let E := scripted [] None None in
  let s := state_of (started true) ∅ in
  let url := "https://platform/videos/123-some-slug" in
  (authenticated (self s) = true
   /\ _context (self s) = Some 3
   /\ fst (download url [] s) = Ok tt)
  /\ ((is_video url || is_lecture url || is_quiz url = true
       /\ exists u,
            collectors_fetch_unit (now s) 3 url = Done u
            /\ download_unit (S (now s)) 3 u (expected_destination u) []
               = Done tt)
      \/ (is_video url || is_lecture url || is_quiz url = false
          /\ is_course url = true
          /\ exists c,
               collectors_fetch_course (now s) 3 url = Done c
               /\ download_course (S (now s)) 3 c [] = Done tt)).
Proof.
  intros E s url.
  assert (Ha : authenticated (self s) = true) by reflexivity.
  assert (Hc : _context (self s) = Some 3) by reflexivity.
  assert (Hd : fst (download url [] s) = Ok tt) by reflexivity.
  split; [ split_and!; assumption | ].
  exact (@download_returns_normally E url [] s 3 Ha Hc Hd).
Defined.
